(** * Defect risk classification and inspection summaries (analysis.py)

    A shallow embedding of [analysis.py]: the column normalizer
    ([COLUMN_MAPPING], [clean_numeric], the renaming loop of
    [normalize_defects]), the risk classifier ([assign_risk_class]), the
    inspection aggregator ([compute_inspection_summary]) and the comparator
    ([compare_with_previous]).

    Python values are an inductive type, numbers are binary64 floats
    (Rocq's primitive floats) and unbounded integers, exceptions are an
    error monad, data frames live in a store of references so that
    [DataFrame.copy] and column assignment are visible as such. *)

From Stdlib Require Import ZArith NArith List Ascii String DecimalString.
From Stdlib Require Import PrimFloat SpecFloat FloatOps FloatAxioms.
From stdpp Require Import base option list gmap.

Set Warnings "-inexact-float".
Local Open Scope Z_scope.

(** ** Text

    A Python [str] is a sequence of Unicode code points. *)

Abbreviation pystr := (list N).

Module Text.

(** Literals are written as UTF-8 source text and decoded to code points. *)
Fixpoint utf8_decode (bs : list N) : pystr :=
  match bs with
  | [] => []
  | b :: tl =>
      if (b <? 0x80)%N then b :: utf8_decode tl
      else if (b <? 0xE0)%N then
        match tl with
        | c :: tl' =>
            N.lor (N.shiftl (N.land b 0x1F) 6) (N.land c 0x3F) :: utf8_decode tl'
        | [] => []
        end
      else if (b <? 0xF0)%N then
        match tl with
        | c :: d :: tl' =>
            N.lor (N.shiftl (N.land b 0x0F) 12)
              (N.lor (N.shiftl (N.land c 0x3F) 6) (N.land d 0x3F)) :: utf8_decode tl'
        | _ => []
        end
      else
        match tl with
        | c :: d :: e :: tl' =>
            N.lor (N.shiftl (N.land b 0x07) 18)
              (N.lor (N.shiftl (N.land c 0x3F) 12)
                 (N.lor (N.shiftl (N.land d 0x3F) 6) (N.land e 0x3F))) :: utf8_decode tl'
        | _ => []
        end
  end.

Definition lit (s : string) : pystr :=
  utf8_decode (map N_of_ascii (list_ascii_of_string s)).

(** [str.lower], one code point at a time, on the Basic Latin, Latin-1 and
    Cyrillic blocks (U+0400..U+052F): the alphabets of the mapping table,
    of the repair markers and of the sheets they are matched against.
    Code points of other scripts are left as they are. *)
Definition lower_cp (c : N) : N :=
  if (0x41 <=? c)%N && (c <=? 0x5A)%N then (c + 32)%N
  else if (0xC0 <=? c)%N && (c <=? 0xDE)%N && negb (c =? 0xD7)%N then (c + 32)%N
  else if (0x400 <=? c)%N && (c <=? 0x40F)%N then (c + 80)%N
  else if (0x410 <=? c)%N && (c <=? 0x42F)%N then (c + 32)%N
  else if (0x460 <=? c)%N && (c <=? 0x481)%N && N.even c then (c + 1)%N
  else if (0x48A <=? c)%N && (c <=? 0x4BF)%N && N.even c then (c + 1)%N
  else if (c =? 0x4C0)%N then 0x4CF%N
  else if (0x4C1 <=? c)%N && (c <=? 0x4CE)%N && N.odd c then (c + 1)%N
  else if (0x4D0 <=? c)%N && (c <=? 0x52F)%N && N.even c then (c + 1)%N
  else c.

Definition lower (s : pystr) : pystr := map lower_cp s.

(** [str.isspace] on one code point. *)
Definition isspace (c : N) : bool :=
  ((0x09 <=? c)%N && (c <=? 0x0D)%N) || ((0x1C <=? c)%N && (c <=? 0x20)%N)
  || (c =? 0x85)%N || (c =? 0xA0)%N || (c =? 0x1680)%N
  || ((0x2000 <=? c)%N && (c <=? 0x200A)%N)
  || (c =? 0x2028)%N || (c =? 0x2029)%N || (c =? 0x202F)%N
  || (c =? 0x205F)%N || (c =? 0x3000)%N.

Fixpoint lstrip (s : pystr) : pystr :=
  match s with
  | c :: s' => if isspace c then lstrip s' else s
  | [] => []
  end.

(** [s.strip()] *)
Definition strip (s : pystr) : pystr := rev (lstrip (rev (lstrip s))).

(** [s.replace(a, b)] for one-character [a] and [b]. *)
Definition replace (a b : N) (s : pystr) : pystr :=
  map (fun c => if (c =? a)%N then b else c) s.

Fixpoint starts_with (p s : pystr) : bool :=
  match p, s with
  | [], _ => true
  | a :: p', b :: s' => (a =? b)%N && starts_with p' s'
  | _ :: _, [] => false
  end.

(** [needle in hay] *)
Fixpoint contains (needle hay : pystr) : bool :=
  starts_with needle hay ||
  match hay with
  | [] => false
  | _ :: hay' => contains needle hay'
  end.

Definition eqb (a b : pystr) : bool := bool_decide (a = b).

End Text.

Notation "'u8' s" := (Text.lit s%string) (at level 1, only parsing).

(** [text] contains [marker] up to letter case: some stretch of [text]
    reads as [marker] once both are put in lower case. *)
Definition mentions (marker text : pystr) : Prop :=
  exists pre w post, text = pre ++ w ++ post /\ Text.lower w = Text.lower marker.

(** ** Exceptions *)

Inductive exn := TypeError | ValueError | KeyError | OverflowError | ZeroDivisionError.

Inductive result (A : Type) : Type :=
| Ok (a : A)
| Raise (e : exn).
Arguments Ok {A} a.
Arguments Raise {A} e.

Definition bind {A B} (r : result A) (k : A -> result B) : result B :=
  match r with
  | Ok a => k a
  | Raise e => Raise e
  end.

Notation "'let*' x ':=' r 'in' k" := (bind r (fun x => k))
  (at level 10, x name, r at level 100, k at level 200).

Fixpoint mapM {A B} (f : A -> result B) (l : list A) : result (list B) :=
  match l with
  | [] => Ok []
  | a :: l' =>
      let* b := f a in
      let* bs := mapM f l' in
      Ok (b :: bs)
  end.

(** ** Numbers

    Python's [float] is a binary64 value, modelled by Rocq's primitive
    floats; [int] is unbounded, modelled by [Z]. Conversions between decimal
    text, integers and floats round to nearest, ties to even, as CPython's
    do; they go through the exact arithmetic of [SpecFloat]. *)

Module Num.

(** The least magnitude that rounds to 2^1024, that is, out of the
    binary64 range. *)
Definition overflow_bound : Z := 2 ^ 1024 - 2 ^ 970.

(** The binary64 value nearest to [a / den] (ties to even), with sign
    [neg], for [0 <= a]. The quotient is taken with at least 64 bits and a
    sticky bit for the remainder, then rounded once. *)
Definition round_ratio (neg : bool) (a : Z) (den : positive) : spec_float :=
  let s := Z.max 0 (Z.log2 (Zpos den) + 64 - Z.log2 a) in
  let (q, r) := Z.div_eucl (a * 2 ^ s) (Zpos den) in
  let m := 2 * q + (if r =? 0 then 0 else 1) in
  binary_normalize prec emax (if neg then - m else m) (- (s + 1)) neg.

(** [float(z)] for an [int] *)
Definition float_of_int (z : Z) : result float :=
  if overflow_bound <=? Z.abs z then Raise OverflowError
  else Ok (SF2Prim (round_ratio (z <? 0) (Z.abs z) 1)).

(** [a / b] for two [int]s: the correctly rounded quotient *)
Definition int_truediv (a b : Z) : result float :=
  if b =? 0 then Raise ZeroDivisionError
  else if overflow_bound * Z.abs b <=? Z.abs a then Raise OverflowError
  else Ok (SF2Prim (round_ratio (xorb (a <? 0) (b <? 0)) (Z.abs a) (Z.to_pos (Z.abs b)))).

(** The float nearest to [m * 10^e], for [0 <= m]: the value of a decimal
    literal. Out of range it is an infinity, as in [float('1e400')]. *)
Definition of_decimal (neg : bool) (m e : Z) : float :=
  SF2Prim (round_ratio neg (m * 10 ^ Z.max e 0) (Z.to_pos (10 ^ Z.max (- e) 0))).

(** The integer nearest to [num / den], ties to even. *)
Definition round_half_even (num : Z) (den : Z) : Z :=
  let q := num / den in
  match 2 * (num mod den) ?= den with
  | Lt => q
  | Gt => q + 1
  | Eq => if Z.even q then q else q + 1
  end.

(** [round(x, 1)] for a float: the exact value of [x] is rounded to one
    decimal place (ties to even) and the decimal read back as a float. *)
Definition round1 (x : float) : float :=
  match Prim2SF x with
  | S754_finite s m e =>
      let n := if 0 <=? e then Zpos m * 2 ^ e * 10
               else round_half_even (Zpos m * 10) (2 ^ (- e)) in
      of_decimal s n (-1)
  | _ => x
  end.

(** [z ? f], exactly; [None] when [f] is a NaN. *)
Definition compare_int_float (z : Z) (f : float) : option comparison :=
  match Prim2SF f with
  | S754_nan => None
  | S754_infinity s => Some (if s then Gt else Lt)
  | S754_zero _ => Some (z ?= 0)
  | S754_finite s m e =>
      let v := if s then Zneg m else Zpos m in
      Some (if 0 <=? e then z ?= v * 2 ^ e else z * 2 ^ (- e) ?= v)
  end.

Definition compare_float (a b : float) : option comparison :=
  match PrimFloat.compare a b with
  | FEq => Some Eq
  | FLt => Some Lt
  | FGt => Some Gt
  | FNotComparable => None
  end.

Inductive number := Int (z : Z) | Flt (f : float).

Definition compare (a b : number) : option comparison :=
  match a, b with
  | Int x, Int y => Some (x ?= y)
  | Int x, Flt y => compare_int_float x y
  | Flt x, Int y => CompOpp <$> compare_int_float y x
  | Flt x, Flt y => compare_float x y
  end.

Definition ltb (a b : number) : bool :=
  match compare a b with Some Lt => true | _ => false end.
Definition gtb (a b : number) : bool :=
  match compare a b with Some Gt => true | _ => false end.
Definition eqb (a b : number) : bool :=
  match compare a b with Some Eq => true | _ => false end.

(** *** [float(s)] for a string

    The built-in first turns every Unicode decimal digit into its ASCII
    digit and every white space outside ASCII into a blank (any other
    character outside ASCII becomes a question mark, which no number holds),
    and strips the ASCII white space at both ends. Then comes the grammar:
    optional sign, then [inf], [infinity] or [nan] in any case, or a decimal
    number with optional fraction and exponent, digits possibly grouped by
    single underscores. [None] stands for the [ValueError]. *)

(** The zero of each run of ten decimal digits of Unicode 14.0, the
    character data of CPython 3.11. *)
Definition decimal_zeros : list N := [
  0x30; 0x660; 0x6F0; 0x7C0; 0x966; 0x9E6; 0xA66; 0xAE6; 0xB66; 0xBE6; 0xC66;
  0xCE6; 0xD66; 0xDE6; 0xE50; 0xED0; 0xF20; 0x1040; 0x1090; 0x17E0; 0x1810;
  0x1946; 0x19D0; 0x1A80; 0x1A90; 0x1B50; 0x1BB0; 0x1C40; 0x1C50; 0xA620;
  0xA8D0; 0xA900; 0xA9D0; 0xA9F0; 0xAA50; 0xABF0; 0xFF10; 0x104A0; 0x10D30;
  0x11066; 0x110F0; 0x11136; 0x111D0; 0x112F0; 0x11450; 0x114D0; 0x11650;
  0x116C0; 0x11730; 0x118E0; 0x11950; 0x11C50; 0x11D50; 0x11DA0; 0x16A60;
  0x16AC0; 0x16B50; 0x1D7CE; 0x1D7D8; 0x1D7E2; 0x1D7EC; 0x1D7F6; 0x1E140;
  0x1E2F0; 0x1E950; 0x1FBF0
]%N.

(** The value of a decimal digit of any script. *)
Definition to_decimal (c : N) : option N :=
  match find (fun z => (z <=? c)%N && (c <? z + 10)%N) decimal_zeros with
  | Some z => Some (c - z)%N
  | None => None
  end.

(** The text [float] parses: ASCII as it is; outside ASCII a white space
    becomes a blank, a decimal digit its ASCII digit, anything else [?]. *)
Definition to_ascii (s : pystr) : pystr :=
  map (fun c =>
         if (c <? 0x80)%N then c
         else if Text.isspace c then 0x20%N
         else match to_decimal c with
              | Some d => (0x30 + d)%N
              | None => 0x3F%N
              end) s.

(** The white space of ASCII that [float] strips: blank, tab, line feed,
    vertical tab, form feed and carriage return. *)
Definition is_ascii_space (c : N) : bool :=
  ((0x09 <=? c)%N && (c <=? 0x0D)%N) || (c =? 0x20)%N.

Fixpoint lstrip_ascii (s : pystr) : pystr :=
  match s with
  | c :: s' => if is_ascii_space c then lstrip_ascii s' else s
  | [] => []
  end.

Definition strip_ascii (s : pystr) : pystr := rev (lstrip_ascii (rev (lstrip_ascii s))).

Definition is_digit (c : N) : bool := (0x30 <=? c)%N && (c <=? 0x39)%N.
Definition digit_val (c : N) : Z := Z.of_N c - 48.

Fixpoint scan_digits (s : pystr) (acc cnt : Z) : Z * Z * pystr :=
  match s with
  | c :: s' =>
      if is_digit c then scan_digits s' (10 * acc + digit_val c) (cnt + 1)
      else if (c =? 0x5F)%N then
        match s' with
        | d :: s'' =>
            if is_digit d then scan_digits s'' (10 * acc + digit_val d) (cnt + 1)
            else (acc, cnt, s)
        | [] => (acc, cnt, s)
        end
      else (acc, cnt, s)
  | [] => (acc, cnt, s)
  end.

(** digitpart ::= digit (["_"] digit)*: its value, its number of digits
    and the rest of the text *)
Definition digitpart (s : pystr) : option (Z * Z * pystr) :=
  match s with
  | c :: s' => if is_digit c then Some (scan_digits s' (digit_val c) 1) else None
  | [] => None
  end.

(** number ::= [digitpart] "." digitpart | digitpart ["."] *)
Definition parse_number (s : pystr) : option (Z * Z * pystr) :=
  match digitpart s with
  | Some (ip, _, r1) =>
      match r1 with
      | 0x2E%N :: r2 =>
          match digitpart r2 with
          | Some (fp, fl, r3) => Some (ip * 10 ^ fl + fp, - fl, r3)
          | None => Some (ip, 0, r2)
          end
      | _ => Some (ip, 0, r1)
      end
  | None =>
      match s with
      | 0x2E%N :: r2 =>
          match digitpart r2 with
          | Some (fp, fl, r3) => Some (fp, - fl, r3)
          | None => None
          end
      | _ => None
      end
  end.

Definition parse_sign (s : pystr) : bool * pystr :=
  match s with
  | 0x2B%N :: r => (false, r)
  | 0x2D%N :: r => (true, r)
  | _ => (false, s)
  end.

(** exponent ::= ("e" | "E") [sign] digitpart, up to the end of the text *)
Definition parse_exponent (s : pystr) : option Z :=
  match s with
  | [] => Some 0
  | c :: r =>
      if (c =? 0x65)%N || (c =? 0x45)%N then
        let (neg, r') := parse_sign r in
        match digitpart r' with
        | Some (v, _, []) => Some (if neg then - v else v)
        | _ => None
        end
      else None
  end.

Definition ascii_lower (s : pystr) : pystr :=
  map (fun c => if (0x41 <=? c)%N && (c <=? 0x5A)%N then (c + 32)%N else c) s.

Definition float_of_str (s : pystr) : option float :=
  let (neg, body) := parse_sign (strip_ascii (to_ascii s)) in
  let word := ascii_lower body in
  if Text.eqb word (u8 "inf") || Text.eqb word (u8 "infinity")
  then Some (if neg then neg_infinity else infinity)
  else if Text.eqb word (u8 "nan") then Some nan
  else
    match parse_number body with
    | Some (m, e, rest) =>
        match parse_exponent rest with
        | Some x => Some (of_decimal neg m (e + x))
        | None => None
        end
    | None => None
    end.

End Num.

(** ** Python values

    The scalars a spreadsheet cell or a summary entry holds: [None], [bool],
    [int], [float] (with NaN, the missing marker of pandas) and [str]. *)

Inductive pyval :=
| PNone
| PBool (b : bool)
| PInt (z : Z)
| PFloat (f : float)
| PStr (s : pystr).

(** [pd.isna(v)] and [pd.notna(v)] on a scalar *)
Definition pd_isna (v : pyval) : bool :=
  match v with
  | PNone => true
  | PFloat f => is_nan f
  | _ => false
  end.

Definition pd_notna (v : pyval) : bool := negb (pd_isna v).

(** The number a value stands for in arithmetic and comparisons;
    [bool] is a subclass of [int]. *)
Definition as_number (v : pyval) : option Num.number :=
  match v with
  | PBool b => Some (Num.Int (if b then 1 else 0))
  | PInt z => Some (Num.Int z)
  | PFloat f => Some (Num.Flt f)
  | PNone | PStr _ => None
  end.

(** [a == b] *)
Definition py_eq (a b : pyval) : bool :=
  match a, b with
  | PNone, PNone => true
  | PStr s, PStr t => Text.eqb s t
  | _, _ =>
      match as_number a, as_number b with
      | Some x, Some y => Num.eqb x y
      | _, _ => false
      end
  end.

(** [v < t] and [v > t] against a number [t]: a [TypeError] unless [v] is
    a number. *)
Definition py_lt (v : pyval) (t : Num.number) : result bool :=
  match as_number v with
  | Some x => Ok (Num.ltb x t)
  | None => Raise TypeError
  end.

Definition py_gt (v : pyval) (t : Num.number) : result bool :=
  match as_number v with
  | Some x => Ok (Num.gtb x t)
  | None => Raise TypeError
  end.

(** [isinstance(v, (int, float))] *)
Definition is_int_or_float (v : pyval) : bool :=
  match v with
  | PBool _ | PInt _ | PFloat _ => true
  | PNone | PStr _ => false
  end.

(** [float(v)] for [v] an [int], a [bool] or a [float] *)
Definition py_float (v : pyval) : result float :=
  match v with
  | PBool b => Ok (if b then 1 else 0)%float
  | PInt z => Num.float_of_int z
  | PFloat f => Ok f
  | PNone | PStr _ => Raise TypeError
  end.

(** ** Constants of the module *)

Record thresholds := {
  erf_high_risk : Num.number;
  erf_medium_risk : Num.number;
  wall_thickness_critical : Num.number;
  depth_critical : Num.number;
  depth_high : Num.number
}.

Definition RISK_THRESHOLDS : thresholds := {|
  erf_high_risk := Num.Flt 0.8;
  erf_medium_risk := Num.Flt 0.5;
  wall_thickness_critical := Num.Flt 3.0;
  depth_critical := Num.Int 40;
  depth_high := Num.Int 25
|}.

(** Field names and the other string literals of the source. *)
Definition repair_flag : pystr := Eval vm_compute in u8 "repair_flag".
Definition erf_b31g : pystr := Eval vm_compute in u8 "erf_b31g".
Definition erf_dnv : pystr := Eval vm_compute in u8 "erf_dnv".
Definition wall_thickness_remaining_mm : pystr :=
  Eval vm_compute in u8 "wall_thickness_remaining_mm".
Definition depth_pct : pystr := Eval vm_compute in u8 "depth_pct".
Definition anomaly_type : pystr := Eval vm_compute in u8 "anomaly_type".
Definition risk_class : pystr := Eval vm_compute in u8 "risk_class".
Definition repair_priority : pystr := Eval vm_compute in u8 "repair_priority".

Definition High : pystr := Eval vm_compute in u8 "High".
Definition Medium : pystr := Eval vm_compute in u8 "Medium".
Definition Low : pystr := Eval vm_compute in u8 "Low".

(** The two repair markers: mandatory and immediate. *)
Definition marker_mandatory : pystr := Eval vm_compute in u8 "обязателен".
Definition marker_immediate : pystr := Eval vm_compute in u8 "немедленн".

(** A row of a data frame, as [DataFrame.apply(..., axis=1)] hands it to its
    function: the cells of the row under the column labels. *)
Abbreviation row := (gmap pystr pyval).

(** [row.get(key, default)] *)
Definition row_get (r : row) (key : pystr) (default : pyval) : pyval :=
  match r !! key with
  | Some v => v
  | None => default
  end.

(** [row[key]] *)
Definition row_item (r : row) (key : pystr) : result pyval :=
  match r !! key with
  | Some v => Ok v
  | None => Raise KeyError
  end.

(** ** Data frames

    A frame is its column labels and its rows (zero or more); every row
    carries a cell under each label. Labels are text and, within a frame,
    distinct: pandas allows a label to be repeated, and then [df[k]] is a
    frame and not a column; such a frame is outside this model, and the
    properties that say the code returns assume [NoDup (columns d)]. Row
    labels play no part in this module and are left out. *)

Record DataFrame := {
  columns : list pystr;
  rows : list row
}.

(** [k in df.columns] *)
Definition has_column (k : pystr) (df : DataFrame) : bool :=
  bool_decide (k ∈ columns df).

(** [df[k]], the cells of a column, top to bottom *)
Definition column (k : pystr) (df : DataFrame) : result (list pyval) :=
  if has_column k df then mapM (fun r => row_item r k) (rows df)
  else Raise KeyError.

(** [df[k] = vals], for a column [vals] as long as the frame: the column
    is replaced, or added as the last one. *)
Definition set_column (k : pystr) (vals : list pyval) (df : DataFrame) : DataFrame :=
  {| columns := if has_column k df then columns df else columns df ++ [k];
     rows := zip_with (fun r v => <[k := v]> r) (rows df) vals |}.

(** *** Reductions of a column, missing cells skipped

    [Series.mean], [Series.max] and [Series.min] with their default
    [skipna=True]; a column with no value left reduces to NaN. Text in the
    column is a [TypeError]. The sum of a mean runs top to bottom here;
    numpy adds a long column in blocks and pairs, so the last bits of such
    a mean are not those of this sum, and no property below states the
    value of a mean of a column that has values. *)

Fixpoint present_values (col : list pyval) : result (list float) :=
  match col with
  | [] => Ok []
  | v :: col' =>
      if pd_isna v then present_values col'
      else
        let* x := py_float v in
        let* xs := present_values col' in
        Ok (x :: xs)
  end.

Definition float_of_count (n : nat) : float :=
  SF2Prim (Num.round_ratio false (Z.of_nat n) 1).

Definition series_mean (col : list pyval) : result float :=
  let* xs := present_values col in
  match xs with
  | [] => Ok nan
  | _ => Ok (fold_left PrimFloat.add xs 0 / float_of_count (length xs))%float
  end.

Definition series_max (col : list pyval) : result float :=
  let* xs := present_values col in
  match xs with
  | [] => Ok nan
  | x :: xs' => Ok (fold_left (fun a b => if (a <? b)%float then b else a) xs' x)
  end.

Definition series_min (col : list pyval) : result float :=
  let* xs := present_values col in
  match xs with
  | [] => Ok nan
  | x :: xs' => Ok (fold_left (fun a b => if (b <? a)%float then b else a) xs' x)
  end.

(** [Series.value_counts()] as a dictionary: how often each value occurs,
    missing cells dropped. The entries are listed by first occurrence;
    pandas lists them by count, and the order, which the equality of two
    dictionaries does not see, is no part of any property below. *)
Fixpoint count_value (v : pyval) (acc : list (pyval * Z)) : list (pyval * Z) :=
  match acc with
  | [] => [(v, 1)]
  | (k, n) :: acc' =>
      if py_eq k v then (k, n + 1) :: acc' else (k, n) :: count_value v acc'
  end.

Definition value_counts (col : list pyval) : list (pyval * Z) :=
  fold_left (fun acc v => if pd_isna v then acc else count_value v acc) col [].

(** ** The store of frames

    Frames are mutable objects reached through references. A computation
    reads and updates the store and ends with a value or an exception. *)

Abbreviation ref := positive.
Abbreviation store := (gmap positive DataFrame).

Definition M (A : Type) : Type := store -> result A * store.

Definition bindM {A B} (m : M A) (k : A -> M B) : M B :=
  fun st =>
    match m st with
    | (Ok a, st') => k a st'
    | (Raise e, st') => (Raise e, st')
    end.

Notation "'let!' x ':=' m 'in' k" := (bindM m (fun x => k))
  (at level 10, x name, m at level 100, k at level 200).

Definition empty_frame : DataFrame := {| columns := []; rows := [] |}.

Definition frame_at (st : store) (l : ref) : DataFrame :=
  match st !! l with
  | Some df => df
  | None => empty_frame
  end.

(** [df.copy()]: a new frame with the same content *)
Definition df_copy (l : ref) : M ref :=
  fun st =>
    let l' := fresh (dom st) in
    (Ok l', <[l' := frame_at st l]> st).

(** [df[k] = vals] on the frame behind a reference *)
Definition setitem (l : ref) (k : pystr) (vals : list pyval) : M unit :=
  fun st => (Ok tt, <[l := set_column k vals (frame_at st l)]> st).

(** A computation that only reads the frame behind a reference. *)
Definition with_frame {A} (l : ref) (f : DataFrame -> result A) : M A :=
  fun st => (f (frame_at st l), st).

Definition fmap_result {A B} (f : A -> B) (r : result A) : result B :=
  let* a := r in Ok (f a).
Infix "<$$>" := fmap_result (at level 60, right associativity).

(** ** Inspection summaries and deltas *)

Record Overview := {
  total_defects : Z;
  pipeline_name : pyval;
  segment_km : pyval;
  diameter_mm : pyval;
  method : pyval;
  inspection_date : pyval
}.

(** The three entries of [by_risk], under the keys 'High', 'Medium', 'Low'. *)
Record ByRisk := {
  n_High : Z;
  n_Medium : Z;
  n_Low : Z
}.

(** The five entries of [statistics]; [None] is Python's [None]. *)
Record Statistics := {
  avg_depth_pct : option float;
  max_depth_pct : option float;
  avg_erf_b31g : option float;
  min_erf_b31g : option float;
  avg_wall_remaining_mm : option float
}.

Record Summary := {
  overview : Overview;
  by_risk : ByRisk;
  by_type : list (pyval * Z);
  by_repair_flag : list (pyval * Z);
  statistics : Statistics;
  table : ref
}.

(** The field [k] of [r] is present (there and not missing) and below,
    or above, the number [t]. *)
Definition present_below (r : row) (k : pystr) (t : Num.number) : Prop :=
  exists v, r !! k = Some v /\ pd_notna v = true /\ py_lt v t = Ok true.

Definition present_above (r : row) (k : pystr) (t : Num.number) : Prop :=
  exists v, r !! k = Some v /\ pd_notna v = true /\ py_gt v t = Ok true.

Section Analysis.

(** [repr] of a finite float, the shortest decimal text that reads back as
    the same float. It is left abstract: no rule looks inside it. *)
Variable repr_float : float -> pystr.

(** [str(v)] *)
Definition py_str (v : pyval) : pystr :=
  match v with
  | PNone => u8 "None"
  | PBool b => if b then u8 "True" else u8 "False"
  | PInt z => u8 (NilZero.string_of_int (Z.to_int z))
  | PFloat f =>
      if is_nan f then u8 "nan"
      else if (f =? infinity)%float then u8 "inf"
      else if (f =? neg_infinity)%float then u8 "-inf"
      else repr_float f
  | PStr s => s
  end.

(** *** Normalizer: numeric coercion *)

Definition clean_numeric (val : pyval) : result float :=
  if pd_isna val || py_eq val (PStr []) then Ok nan
  else if is_int_or_float val then py_float val
  else
    let str_val := Text.strip (Text.replace 0x2C 0x2E (py_str val)) in
    match Num.float_of_str str_val with
    | Some f => Ok f
    | None => Ok nan
    end.

(** *** Risk classifier *)

(** [pd.notna(v) and v < t], [pd.notna(v) and v > t] *)
Definition notna_and_lt (v : pyval) (t : Num.number) : result bool :=
  if pd_notna v then py_lt v t else Ok false.

Definition notna_and_gt (v : pyval) (t : Num.number) : result bool :=
  if pd_notna v then py_gt v t else Ok false.

Definition assign_risk_class (r : row) : result pystr :=
  let flag := Text.lower (py_str (row_get r repair_flag (PStr []))) in
  if Text.contains marker_mandatory flag || Text.contains marker_immediate flag
  then Ok High
  else
    let b31g := row_get r erf_b31g (PFloat 1.0) in
    let dnv := row_get r erf_dnv (PFloat 1.0) in
    let* c := notna_and_lt b31g (erf_high_risk RISK_THRESHOLDS) in
    if c then Ok High else
    let* c := notna_and_lt dnv (erf_high_risk RISK_THRESHOLDS) in
    if c then Ok High else
    let wall_remaining := row_get r wall_thickness_remaining_mm (PInt 100) in
    let* c := notna_and_lt wall_remaining (wall_thickness_critical RISK_THRESHOLDS) in
    if c then Ok High else
    let depth := row_get r depth_pct (PInt 0) in
    let* c := notna_and_gt depth (depth_critical RISK_THRESHOLDS) in
    if c then Ok High else
    let* c := notna_and_lt b31g (erf_medium_risk RISK_THRESHOLDS) in
    if c then Ok Medium else
    let* c := notna_and_lt dnv (erf_medium_risk RISK_THRESHOLDS) in
    if c then Ok Medium else
    let* c := notna_and_gt depth (depth_high RISK_THRESHOLDS) in
    if c then Ok Medium else
    Ok Low.

(** *** Inspection aggregator *)

(** [df.apply(f, axis=1)]: [f] on every row, top to bottom; the first
    exception ends the pass. On a frame without rows pandas calls [f] on
    no row of the frame and returns an empty column. *)
Definition apply_rows {A} (f : row -> result A) (df : DataFrame) : result (list A) :=
  mapM f (rows df).

Definition assign_priority (r : row) : result pyval :=
  let* rc := row_item r risk_class in
  if py_eq rc (PStr High) then Ok (PInt 1)
  else if py_eq rc (PStr Medium) then Ok (PInt 2)
  else Ok (PInt 3).

(** [int((df['risk_class'] == tier).sum())] *)
Definition count_tier (tier : pystr) (df : DataFrame) : result Z :=
  let* col := column risk_class df in
  Ok (Z.of_nat (length (filter (fun v => py_eq v (PStr tier) = true) col))).

(** [float(df[k].agg()) if k in df.columns else None] *)
Definition stat_if_present (agg : list pyval -> result float) (k : pystr)
    (df : DataFrame) : result (option float) :=
  if has_column k df then
    let* col := column k df in
    let* x := agg col in
    Ok (Some x)
  else Ok None.

(** [df[k].value_counts().to_dict() if k in df.columns else {}] *)
Definition counts_if_present (k : pystr) (df : DataFrame) : result (list (pyval * Z)) :=
  if has_column k df then
    let* col := column k df in
    Ok (value_counts col)
  else Ok [].

(** The dictionary literal [summary = {...}], read off the enriched
    frame [d] behind the reference [df]. *)
Definition build_summary (inspection_meta : row) (df : ref) (d : DataFrame)
  : result Summary :=
  let* n_high := count_tier High d in
  let* n_medium := count_tier Medium d in
  let* n_low := count_tier Low d in
  let* types := counts_if_present anomaly_type d in
  let* flags := counts_if_present repair_flag d in
  let* avg_depth := stat_if_present series_mean depth_pct d in
  let* max_depth := stat_if_present series_max depth_pct d in
  let* avg_erf := stat_if_present series_mean erf_b31g d in
  let* min_erf := stat_if_present series_min erf_b31g d in
  let* avg_wall := stat_if_present series_mean wall_thickness_remaining_mm d in
  Ok {|
    overview := {|
      total_defects := Z.of_nat (length (rows d));
      pipeline_name := row_get inspection_meta (u8 "pipeline_name") (PStr (u8 "N/A"));
      segment_km := row_get inspection_meta (u8 "segment_km") (PStr (u8 "N/A"));
      diameter_mm := row_get inspection_meta (u8 "diameter_mm") (PStr (u8 "N/A"));
      method := row_get inspection_meta (u8 "method") (PStr (u8 "N/A"));
      inspection_date := row_get inspection_meta (u8 "start_date") (PStr (u8 "N/A"))
    |};
    by_risk := {| n_High := n_high; n_Medium := n_medium; n_Low := n_low |};
    by_type := types;
    by_repair_flag := flags;
    statistics := {|
      avg_depth_pct := avg_depth;
      max_depth_pct := max_depth;
      avg_erf_b31g := avg_erf;
      min_erf_b31g := min_erf;
      avg_wall_remaining_mm := avg_wall
    |};
    table := df
  |}.

(** [risk_class] is a column of text. *)
Definition risk_class_of (r : row) : result pyval := PStr <$$> assign_risk_class r.

Definition compute_inspection_summary (defects_df : ref) (inspection_meta : row)
  : M Summary :=
  let! df := df_copy defects_df in
  let! tiers := with_frame df (apply_rows risk_class_of) in
  let! _ := setitem df risk_class tiers in
  let! priorities := with_frame df (apply_rows assign_priority) in
  let! _ := setitem df repair_priority priorities in
  with_frame df (build_summary inspection_meta df).

(** *** Vocabulary of rule 1 *)

(** The text rule 1 searches: the repair flag as text, empty when the
    record has no such field. *)
Definition flag_text (r : row) : pystr := py_str (row_get r repair_flag (PStr [])).

(** The repair flag carries one of the two markers, in any letter case. *)
Definition flagged (r : row) : Prop :=
  mentions marker_mandatory (flag_text r) \/ mentions marker_immediate (flag_text r).

(** One of the five signals of the High tier: a repair marker, an ERF below
    0.8, a remaining wall below 3.0 mm, a depth above 40 %. *)
Definition high_signal (r : row) : Prop :=
  flagged r \/
  present_below r erf_b31g (Num.Flt 0.8) \/
  present_below r erf_dnv (Num.Flt 0.8) \/
  present_below r wall_thickness_remaining_mm (Num.Flt 3.0) \/
  present_above r depth_pct (Num.Int 40).

End Analysis.

(** ** Inspection comparator *)

(** The dictionary [compare_with_previous] returns; the two percentage
    entries are absent ([None] here) when there is no previous summary. *)
Record Delta := {
  defects_change : Z;
  high_risk_change : Z;
  defects_change_pct : option pyval;
  high_risk_change_pct : option pyval;
  has_previous : bool
}.

(** [round(x, 1)]: an [int] is returned as it is, a [float] rounded. *)
Definition py_round1 (x : Num.number) : pyval :=
  match x with
  | Num.Int z => PInt z
  | Num.Flt f => PFloat (Num.round1 f)
  end.

(** [round(((curr - prev) / prev * 100) if prev > 0 else 0, 1)] *)
Definition change_pct (curr prev : Z) : result pyval :=
  let* x :=
    if prev >? 0 then
      let* q := Num.int_truediv (curr - prev) prev in
      Ok (Num.Flt (q * 100)%float)
    else Ok (Num.Int 0) in
  Ok (py_round1 x).

Definition compare_with_previous (current_summary : Summary)
    (previous_summary : option Summary) : result Delta :=
  match previous_summary with
  | None =>
      Ok {| defects_change := 0;
            high_risk_change := 0;
            defects_change_pct := None;
            high_risk_change_pct := None;
            has_previous := false |}
  | Some previous =>
      let curr_total := total_defects (overview current_summary) in
      let prev_total := total_defects (overview previous) in
      let curr_high := n_High (by_risk current_summary) in
      let prev_high := n_High (by_risk previous) in
      let* total_pct := change_pct curr_total prev_total in
      let* high_pct := change_pct curr_high prev_high in
      Ok {| defects_change := curr_total - prev_total;
            high_risk_change := curr_high - prev_high;
            defects_change_pct := Some total_pct;
            high_risk_change_pct := Some high_pct;
            has_previous := true |}
  end.

(** ** Normalizer: column renaming *)

(** The mapping table, in the order of the dictionary literal. *)
Definition COLUMN_MAPPING : list (pystr * pystr) := Eval vm_compute in [
  (u8 "№ секции", u8 "section_id");
  (u8 "длина секции [м]", u8 "section_length_m");
  (u8 "прив.ТС [мм]", u8 "wall_thickness_mm");
  (u8 "расст. до шва против теч. [м]", u8 "distance_to_weld_m");
  (u8 "измер. расст. [м]", u8 "measured_distance_m");
  (u8 "тип аномалии", u8 "anomaly_type");
  (u8 "идентификация", u8 "identification");
  (u8 "комментарий", u8 "comment");
  (u8 "ориентация", u8 "orientation");
  (u8 "длина [мм]", u8 "defect_length_mm");
  (u8 "ширина [мм]", u8 "defect_width_mm");
  (u8 "глубина [%]", u8 "depth_pct");
  (u8 "средняя глубина [%]", u8 "depth_avg_pct");
  (u8 "абс. глубина [мм]", u8 "depth_abs_mm");
  (u8 "остат. ТС [мм]", u8 "wall_thickness_remaining_mm");
  (u8 "рез. глубина [%]", u8 "depth_result_pct");
  (u8 "уменьш. ВД [%]", u8 "pressure_reduction_pct");
  (u8 "ERF B31G", u8 "erf_b31g");
  (u8 "ERF (случай 1)", u8 "erf_case1");
  (u8 "ERF (случай 2)", u8 "erf_case2");
  (u8 "ERF DNV", u8 "erf_dnv");
  (u8 "локация на поверхн.", u8 "surface_location");
  (u8 "класс лок.", u8 "local_class");
  (u8 "Ремонт", u8 "repair_flag")
].

(** [key.lower() in str(old_col).lower()], for a header that is text *)
Definition key_matches (key old_col : pystr) : bool :=
  Text.contains (Text.lower key) (Text.lower old_col).

(** The inner loop over the entries of the table, left at its [break]:
    the target of the first entry that matches, if any. *)
Fixpoint scan_mapping (items : list (pystr * pystr)) (old_col : pystr) : option pystr :=
  match items with
  | [] => None
  | (key, val) :: items' =>
      if key_matches key old_col then Some val else scan_mapping items' old_col
  end.

(** The outer loop over [df.columns], filling [rename_dict]. *)
Definition build_rename_dict (items : list (pystr * pystr)) (cols : list pystr)
  : gmap pystr pystr :=
  fold_left
    (fun rename_dict old_col =>
       match scan_mapping items old_col with
       | Some val => <[old_col := val]> rename_dict
       | None => rename_dict
       end)
    cols ∅.

(** [df.rename(columns=rename_dict)] on the labels *)
Definition rename (rename_dict : gmap pystr pystr) (cols : list pystr) : list pystr :=
  map (fun c => match rename_dict !! c with Some val => val | None => c end) cols.

(** The column labels of [normalize_defects(df_raw)], from those of
    [df_raw]. *)
Definition normalized_columns (cols : list pystr) : list pystr :=
  rename (build_rename_dict COLUMN_MAPPING cols) cols.

(** ** Vocabulary of the properties *)

(** The field [k] of [r] is absent or holds the missing marker. *)
Definition absent_or_missing (r : row) (k : pystr) : Prop :=
  match r !! k with
  | Some v => pd_isna v = true
  | None => True
  end.

(** A numeric cell past the normalizer holds a number or the missing
    marker, never text. *)
Definition numeric_or_missing (v : pyval) : Prop :=
  match v with
  | PStr _ => False
  | _ => True
  end.

Definition numeric_field (r : row) (k : pystr) : Prop :=
  forall v, r !! k = Some v -> numeric_or_missing v.

(** A defect record: the four measurements the classifier reads are
    numeric cells, each present, missing or absent. *)
Definition defect_record (r : row) : Prop :=
  numeric_field r erf_b31g /\ numeric_field r erf_dnv /\
  numeric_field r wall_thickness_remaining_mm /\ numeric_field r depth_pct.

(** The repair flag is absent, missing or the empty text. *)
Definition no_flag_text (r : row) : Prop :=
  match r !! repair_flag with
  | Some v => pd_isna v = true \/ v = PStr []
  | None => True
  end.

(** The names of the four measurements. *)
Definition measurements : list pystr :=
  [erf_b31g; erf_dnv; wall_thickness_remaining_mm; depth_pct].

(** A cell that [float] accepts, or a missing one: what the normalizer
    leaves in a numeric column. *)
Definition float_or_missing (v : pyval) : Prop :=
  match v with
  | PNone | PBool _ | PFloat _ => True
  | PInt z => Z.abs z < Num.overflow_bound
  | PStr _ => False
  end.

(** A defect table: every row has a cell under every label, and the cells
    of the four measurements are numeric. *)
Definition defect_table (d : DataFrame) : Prop :=
  Forall (fun r : row =>
            Forall (fun k => is_Some (r !! k)) (columns d) /\
            Forall (fun k => forall v, r !! k = Some v -> float_or_missing v) measurements)
         (rows d).

(** The frame the aggregator works on, once both derived columns are set. *)
Definition enriched (tiers priorities : list pyval) (d : DataFrame) : DataFrame :=
  set_column repair_priority priorities (set_column risk_class tiers d).

(** The value a statistic takes on a frame without rows: NaN when its
    column is there, [None] when it is not. *)
Definition empty_statistic (k : pystr) (d : DataFrame) : option float :=
  if has_column k d then Some nan else None.



(** ** Sample data *)

(** A stand-in for [repr] on floats, for records whose repair flag is text. *)
Definition repr_unused (f : float) : pystr := [].

(** {erf_b31g: 0.45, depth_pct: 10, wall_thickness_remaining_mm: 8, repair_flag: ""} *)
Definition record_erf_045 : row :=
  <[erf_b31g := PFloat 0.45]> (<[depth_pct := PInt 10]>
    (<[wall_thickness_remaining_mm := PInt 8]> (<[repair_flag := PStr []]> ∅))).

(** {erf_b31g: 0.6, depth_pct: 30, wall_thickness_remaining_mm: 10, repair_flag: ""} *)
Definition record_erf_06 : row :=
  <[erf_b31g := PFloat 0.6]> (<[depth_pct := PInt 30]>
    (<[wall_thickness_remaining_mm := PInt 10]> (<[repair_flag := PStr []]> ∅))).

(** {erf_b31g: 0.9, depth_pct: 30, wall_thickness_remaining_mm: 10, repair_flag: ""} *)
Definition record_depth_30 : row :=
  <[erf_b31g := PFloat 0.9]> (<[depth_pct := PInt 30]>
    (<[wall_thickness_remaining_mm := PInt 10]> (<[repair_flag := PStr []]> ∅))).

(** A record with a repair mandate in capitals and every measurement missing. *)
Definition record_mandate : row :=
  <[repair_flag := PStr (u8 "Ремонт ОБЯЗАТЕЛЕН")]>
    (<[erf_b31g := PFloat nan]> (<[erf_dnv := PFloat nan]>
       (<[depth_pct := PFloat nan]> (<[wall_thickness_remaining_mm := PFloat nan]> ∅)))).

(** A record with every measurement missing and no repair flag text. *)
Definition record_blank : row :=
  <[repair_flag := PStr []]>
    (<[erf_b31g := PFloat nan]> (<[erf_dnv := PFloat nan]>
       (<[depth_pct := PFloat nan]> (<[wall_thickness_remaining_mm := PFloat nan]> ∅)))).

(** A sheet with its header row and no defect. *)
Definition frame_headers_only : DataFrame :=
  {| columns := [depth_pct; erf_b31g; repair_flag]; rows := [] |}.

(** A table of three defects. *)
Definition frame_three : DataFrame :=
  {| columns := [erf_b31g; depth_pct; wall_thickness_remaining_mm; repair_flag];
     rows := [record_erf_045; record_depth_30; record_erf_06] |}.

Definition store_of (d : DataFrame) : store := {[ 1%positive := d ]}.

(** A summary with the given totals, for the comparator. *)
Definition summary_with (total high : Z) : Summary :=
  {| overview := {| total_defects := total; pipeline_name := PStr (u8 "N/A");
                    segment_km := PStr (u8 "N/A"); diameter_mm := PStr (u8 "N/A");
                    method := PStr (u8 "N/A"); inspection_date := PStr (u8 "N/A") |};
     by_risk := {| n_High := high; n_Medium := 0; n_Low := total - high |};
     by_type := [];
     by_repair_flag := [];
     statistics := {| avg_depth_pct := None; max_depth_pct := None; avg_erf_b31g := None;
                      min_erf_b31g := None; avg_wall_remaining_mm := None |};
     table := 1%positive |}.

(** ** Normalizer: cleaning of the numeric columns, dropping of empty rows

    The second half of [normalize_defects], on the renamed copy [df]. *)

(** [numeric_cols], in the order of the list literal. *)
Definition numeric_cols : list pystr := Eval vm_compute in [
  u8 "section_length_m"; u8 "wall_thickness_mm"; u8 "distance_to_weld_m";
  u8 "measured_distance_m"; u8 "defect_length_mm"; u8 "defect_width_mm";
  u8 "depth_pct"; u8 "depth_avg_pct"; u8 "depth_abs_mm";
  u8 "wall_thickness_remaining_mm"; u8 "depth_result_pct";
  u8 "pressure_reduction_pct"; u8 "erf_b31g"; u8 "erf_case1";
  u8 "erf_case2"; u8 "erf_dnv"
].

Section Normalizer.

Variable repr_float : float -> pystr.

(** [df[col] = df[col].apply(clean_numeric)]: the function is applied to
    the cells top to bottom, the first exception ends the run; the column
    of the floats returned replaces the old one. *)
Definition clean_column (col : pystr) (df : DataFrame) : result DataFrame :=
  let* cells := column col df in
  let* cleaned := mapM (clean_numeric repr_float) cells in
  Ok (set_column col (map PFloat cleaned) df).

(** The loop over [numeric_cols]: a name that is no label of the frame is
    passed over. *)
Fixpoint clean_numeric_columns (cols : list pystr) (df : DataFrame) : result DataFrame :=
  match cols with
  | [] => Ok df
  | col :: cols' =>
      if has_column col df then
        let* df' := clean_column col df in
        clean_numeric_columns cols' df'
      else clean_numeric_columns cols' df
  end.

End Normalizer.

(** [pd.notna] of the cell of [r] under [k]. *)
Definition cell_present (k : pystr) (r : row) : bool :=
  match r !! k with
  | Some v => pd_notna v
  | None => false
  end.

(** [df.dropna(how='all')]: a row stays when one of its cells is not
    missing; the rows that stay keep their order. *)
Definition dropna_all (df : DataFrame) : DataFrame :=
  {| columns := columns df;
     rows := filter (fun r => existsb (fun k => cell_present k r) (columns df) = true)
               (rows df) |}.

Section NormalizerTail.

Variable repr_float : float -> pystr.

(** The cleaning loop, then [dropna]: the frame [normalize_defects]
    returns, from the renamed copy. *)
Definition clean_and_drop (df : DataFrame) : result DataFrame :=
  let* df' := clean_numeric_columns repr_float numeric_cols df in
  Ok (dropna_all df').

End NormalizerTail.

(** ** Vocabulary of the further properties *)


(** The repair priority that mirrors a tier: 1 for High, 2 for Medium, 3
    otherwise. *)
Definition priority_of (tier : pystr) : Z :=
  if Text.eqb tier High then 1 else if Text.eqb tier Medium then 2 else 3.

(** The sum of the counts of a frequency table. *)
Definition total_count (counts : list (pyval * Z)) : Z :=
  foldr (fun kv acc => kv.2 + acc) 0 counts.

Section FurtherVocabulary.

Variable repr_float : float -> pystr.

(** The classifier returns the tier [tier] on [r]. *)
Definition classified_as (tier : pystr) (r : row) : bool :=
  match assign_risk_class repr_float r with
  | Ok c => Text.eqb c tier
  | Raise _ => false
  end.

(** [r'] is [r] after the cleaning of the columns [cols] of [d]: under a
    name of [cols] that is a label of [d] the cell is the float
    [clean_numeric] returns on the old cell; every other cell is as it was. *)
Definition cleaned_cells (cols : list pystr) (d : DataFrame) (r r' : row) : Prop :=
  forall k,
    (k ∈ cols -> has_column k d = true ->
     exists v x, r !! k = Some v /\ clean_numeric repr_float v = Ok x /\
                 r' !! k = Some (PFloat x)) /\
    (~ (k ∈ cols /\ has_column k d = true) -> r' !! k = r !! k).

End FurtherVocabulary.

(** Every row of [d] has its cells under the labels of [d], and no other. *)
Definition labelled (d : DataFrame) : Prop :=
  Forall (fun r : row => forall k, is_Some (r !! k) <-> k ∈ columns d) (rows d).


(** One of the cells of [r] under the labels [ks] is not missing. *)
Definition some_cell_present (ks : list pystr) (r : row) : Prop :=
  Exists (fun k => cell_present k r = true) ks.

(** Every cell of the column [k] of [d] is a float, NaN where it is
    missing: a numeric column as the normalizer leaves it. *)
Definition float_column (k : pystr) (d : DataFrame) : Prop :=
  Forall (fun r : row => exists f, r !! k = Some (PFloat f)) (rows d).

(** [f] is a value of the column [k] of [d]: the content of a cell that
    is not missing. *)
Definition value_in (k : pystr) (d : DataFrame) (f : float) : Prop :=
  is_nan f = false /\ Exists (fun r : row => r !! k = Some (PFloat f)) (rows d).

Definition comment : pystr := Eval vm_compute in u8 "comment".

(** A sheet after the renaming: a decimal comma in the first row; in the
    second nothing but a dash for the depth. *)
Definition frame_renamed : DataFrame :=
  {| columns := [depth_pct; erf_b31g; comment];
     rows := [ <[depth_pct := PStr (u8 "12,5")]> (<[erf_b31g := PFloat 0.9]>
                 (<[comment := PStr (u8 "weld")]> ∅));
               <[depth_pct := PStr (u8 "-")]> (<[erf_b31g := PNone]>
                 (<[comment := PNone]> ∅)) ] |}.

(** The same sheet with its numeric columns cleaned. *)
Definition frame_cleaned : DataFrame :=
  {| columns := [depth_pct; erf_b31g; comment];
     rows := [ <[depth_pct := PFloat 12.5]> (<[erf_b31g := PFloat 0.9]>
                 (<[comment := PStr (u8 "weld")]> ∅));
               <[depth_pct := PFloat nan]> (<[erf_b31g := PFloat nan]>
                 (<[comment := PNone]> ∅)) ] |}.

(** The same sheet as [normalize_defects] returns it. *)
Definition frame_normalized : DataFrame :=
  {| columns := [depth_pct; erf_b31g; comment];
     rows := [ <[depth_pct := PFloat 12.5]> (<[erf_b31g := PFloat 0.9]>
                 (<[comment := PStr (u8 "weld")]> ∅)) ] |}.

(** A sheet that has not been cleaned: the ERF as text with a comma. *)
Definition record_text_erf : row :=
  <[erf_b31g := PStr (u8 "0,45")]> (<[repair_flag := PStr []]> ∅).

Definition frame_unclean : DataFrame :=
  {| columns := [erf_b31g; repair_flag]; rows := [record_text_erf] |}.

(** A sheet with an integer too large for a float. *)
Definition frame_huge : DataFrame :=
  {| columns := [comment; depth_pct];
     rows := [ <[comment := PStr (u8 "weld")]> (<[depth_pct := PInt (2 ^ 1024)]> ∅) ] |}.

(** {erf_b31g: 0.95, erf_dnv: 0.9, depth_pct: 12.0,
     wall_thickness_remaining_mm: 2.5, repair_flag: ""} *)
Definition record_thin_wall : row :=
  <[erf_b31g := PFloat 0.95]> (<[erf_dnv := PFloat 0.9]> (<[depth_pct := PFloat 12.0]>
    (<[wall_thickness_remaining_mm := PFloat 2.5]> (<[repair_flag := PStr []]> ∅)))).

(** ** Properties of text *)

Lemma starts_with_spec p s :
  Text.starts_with p s = true <-> exists post, s = p ++ post.
Proof.
  revert s. induction p as [|a p IH]; intros s; simpl.
  - split; [intros _; by exists s | done].
  - destruct s as [|b s].
    + split; [done | intros [post H]; discriminate].
    + rewrite andb_true_iff, N.eqb_eq, IH. split.
      * intros [-> [post ->]]. by exists post.
      * intros [post H]. injection H as -> ->. split; [done | by exists post].
Qed.

Lemma contains_spec needle hay :
  Text.contains needle hay = true <-> exists pre post, hay = pre ++ needle ++ post.
Proof.
  induction hay as [|c hay IH]; simpl.
  - rewrite orb_false_r, starts_with_spec. split.
    + intros [post H]. by exists [], post.
    + intros [pre [post H]]. destruct pre; [by exists post | discriminate].
  - rewrite orb_true_iff, starts_with_spec, IH. split.
    + intros [[post H] | [pre [post H]]].
      * by exists [], post.
      * exists (c :: pre), post. by rewrite H.
    + intros [pre [post H]]. destruct pre as [|c' pre].
      * left. by exists post.
      * right. injection H as -> ->. by exists pre, post.
Qed.

Lemma lower_app a b : Text.lower (a ++ b) = Text.lower a ++ Text.lower b.
Proof. apply map_app. Qed.

(** Containment after lowering is containment up to letter case. *)
Lemma contains_lower_mentions marker text :
  Text.contains (Text.lower marker) (Text.lower text) = true <-> mentions marker text.
Proof.
  rewrite contains_spec. split.
  - intros [pre [post H]]. unfold Text.lower in H at 1.
    apply map_eq_app in H as [a [rest [-> [Ha H]]]].
    apply map_eq_app in H as [w [b [-> [Hw Hb]]]].
    by exists a, w, b.
  - intros [a [w [b [-> Hw]]]].
    exists (Text.lower a), (Text.lower b). by rewrite !lower_app, Hw.
Qed.

(** ** Properties of the classifier *)

Lemma row_get_insert_eq (r : row) k v d : row_get (<[k := v]> r) k d = v.
Proof. unfold row_get. by rewrite lookup_insert_eq. Qed.

Lemma row_get_insert_ne (r : row) k j v d :
  k <> j -> row_get (<[k := v]> r) j d = row_get r j d.
Proof. intros H. unfold row_get. by rewrite lookup_insert_ne. Qed.

Lemma row_get_delete_eq (r : row) k d : row_get (delete k r) k d = d.
Proof. unfold row_get. by rewrite lookup_delete_eq. Qed.

Lemma row_get_delete_ne (r : row) k j d :
  k <> j -> row_get (delete k r) j d = row_get r j d.
Proof. intros H. unfold row_get. by rewrite lookup_delete_ne. Qed.

Lemma row_get_numeric (r : row) k d :
  numeric_field r k -> numeric_or_missing d -> numeric_or_missing (row_get r k d).
Proof.
  intros Hk Hd. unfold row_get. destruct (r !! k) as [v|] eqn:E; [by apply Hk | done].
Qed.

Lemma notna_and_lt_numeric v t :
  numeric_or_missing v -> exists c, notna_and_lt v t = Ok c.
Proof.
  intros Hv. unfold notna_and_lt, py_lt.
  destruct v; simpl in *; try done;
    try (destruct (pd_notna _)); eexists; reflexivity.
Qed.

Lemma notna_and_gt_numeric v t :
  numeric_or_missing v -> exists c, notna_and_gt v t = Ok c.
Proof.
  intros Hv. unfold notna_and_gt, py_gt.
  destruct v; simpl in *; try done;
    try (destruct (pd_notna _)); eexists; reflexivity.
Qed.

Lemma notna_and_lt_missing v t : pd_isna v = true -> notna_and_lt v t = Ok false.
Proof. intros H. unfold notna_and_lt, pd_notna. by rewrite H. Qed.

Lemma notna_and_gt_missing v t : pd_isna v = true -> notna_and_gt v t = Ok false.
Proof. intros H. unfold notna_and_gt, pd_notna. by rewrite H. Qed.

(** A field that is present and below the threshold fires its rule. *)
Lemma present_below_fires (r : row) k d t :
  present_below r k t -> notna_and_lt (row_get r k d) t = Ok true.
Proof.
  intros [v [Hk [Hna Hlt]]]. unfold row_get, notna_and_lt. by rewrite Hk, Hna.
Qed.

Lemma present_above_fires (r : row) k d t :
  present_above r k t -> notna_and_gt (row_get r k d) t = Ok true.
Proof.
  intros [v [Hk [Hna Hgt]]]. unfold row_get, notna_and_gt. by rewrite Hk, Hna.
Qed.

(** A numeric field that is not present and below the threshold leaves its
    rule to the default, which does not fire. *)
Lemma not_below_passes (r : row) k d t :
  numeric_field r k -> ~ present_below r k t ->
  notna_and_lt d t = Ok false ->
  notna_and_lt (row_get r k d) t = Ok false.
Proof.
  intros Hnum Hnot Hd. unfold row_get.
  destruct (r !! k) as [v|] eqn:E; [|done].
  destruct (notna_and_lt_numeric v t (Hnum v E)) as [[] Hc]; [|done].
  exfalso. apply Hnot. exists v. unfold notna_and_lt in Hc.
  destruct (pd_notna v); [done | discriminate].
Qed.

Lemma not_above_passes (r : row) k d t :
  numeric_field r k -> ~ present_above r k t ->
  notna_and_gt d t = Ok false ->
  notna_and_gt (row_get r k d) t = Ok false.
Proof.
  intros Hnum Hnot Hd. unfold row_get.
  destruct (r !! k) as [v|] eqn:E; [|done].
  destruct (notna_and_gt_numeric v t (Hnum v E)) as [[] Hc]; [|done].
  exfalso. apply Hnot. exists v. unfold notna_and_gt in Hc.
  destruct (pd_notna v); [done | discriminate].
Qed.

Lemma absent_or_missing_passes_lt (r : row) k d t :
  absent_or_missing r k -> notna_and_lt d t = Ok false ->
  notna_and_lt (row_get r k d) t = Ok false.
Proof.
  unfold absent_or_missing, row_get. intros H Hd.
  destruct (r !! k); [by apply notna_and_lt_missing | done].
Qed.

Lemma absent_or_missing_passes_gt (r : row) k d t :
  absent_or_missing r k -> notna_and_gt d t = Ok false ->
  notna_and_gt (row_get r k d) t = Ok false.
Proof.
  unfold absent_or_missing, row_get. intros H Hd.
  destruct (r !! k); [by apply notna_and_gt_missing | done].
Qed.

Section ClassifierProperties.

Variable repr_float : float -> pystr.

(** The test of rule 1 is the search for a marker up to letter case. *)
Lemma flag_test_flagged (r : row) :
  Text.contains marker_mandatory (Text.lower (flag_text repr_float r))
  || Text.contains marker_immediate (Text.lower (flag_text repr_float r)) = true
  <-> flagged repr_float r.
Proof.
  unfold flagged. rewrite orb_true_iff.
  rewrite <- !contains_lower_mentions. reflexivity.
Qed.

Lemma flag_test_not_flagged (r : row) :
  ~ flagged repr_float r ->
  Text.contains marker_mandatory (Text.lower (flag_text repr_float r))
  || Text.contains marker_immediate (Text.lower (flag_text repr_float r)) = false.
Proof.
  intros H. apply not_true_is_false. by rewrite flag_test_flagged.
Qed.

Lemma not_flagged_by_test (r : row) :
  Text.contains marker_mandatory (Text.lower (flag_text repr_float r))
  || Text.contains marker_immediate (Text.lower (flag_text repr_float r)) = false ->
  ~ flagged repr_float r.
Proof. intros H Hf. apply flag_test_flagged in Hf. congruence. Qed.

Lemma flagged_is_High (r : row) :
  flagged repr_float r -> assign_risk_class repr_float r = Ok High.
Proof.
  intros H. apply flag_test_flagged in H. unfold assign_risk_class.
  fold (flag_text repr_float r). by rewrite H.
Qed.

Ltac open_classifier :=
  unfold assign_risk_class, RISK_THRESHOLDS;
  cbn [erf_high_risk erf_medium_risk wall_thickness_critical depth_critical depth_high];
  repeat match goal with
  | |- context [py_str repr_float (row_get ?r repair_flag (PStr []))] =>
      progress fold (flag_text repr_float r)
  end.

(** One rule of the cascade on a numeric field: it evaluates to a truth
    value, and the proof goes on along both. *)
Ltac rule_lt r k :=
  let c := fresh "c" in
  let Hc := fresh "Hc" in
  match goal with
  | |- context [notna_and_lt (row_get r k ?d) ?t] =>
      destruct (notna_and_lt_numeric (row_get r k d) t) as [c Hc];
      [ apply row_get_numeric; [assumption | exact I] | rewrite Hc; cbn [bind]; destruct c ]
  end.

Ltac rule_gt r k :=
  let c := fresh "c" in
  let Hc := fresh "Hc" in
  match goal with
  | |- context [notna_and_gt (row_get r k ?d) ?t] =>
      destruct (notna_and_gt_numeric (row_get r k d) t) as [c Hc];
      [ apply row_get_numeric; [assumption | exact I] | rewrite Hc; cbn [bind]; destruct c ]
  end.

(** C1. A record whose repair flag text contains "обязателен" or
    "немедленн", in any letter case, is classified High, whatever the other
    fields hold: nothing is assumed of them, so they may all be missing,
    absent or ill-typed. *)
Theorem repair_marker_classifies_High (r : row) (s : pystr) :
  r !! repair_flag = Some (PStr s) ->
  mentions marker_mandatory s \/ mentions marker_immediate s ->
  assign_risk_class repr_float r = Ok High.
Proof.
  intros Hr Hm. apply flagged_is_High.
  unfold flagged, flag_text, row_get. by rewrite Hr.
Qed.

(** C2. A defect record whose [erf_b31g] is present and below 0.8, or whose
    [erf_dnv] is present and below 0.8, is classified High; so is the
    record {erf_b31g: 0.45, depth_pct: 10, wall_thickness_remaining_mm: 8,
    repair_flag: ""}, by the order of the rules. *)
Theorem erf_below_high_threshold_classifies_High :
  (forall r : row,
     defect_record r ->
     present_below r erf_b31g (Num.Flt 0.8) \/ present_below r erf_dnv (Num.Flt 0.8) ->
     assign_risk_class repr_float r = Ok High) /\
  assign_risk_class repr_float record_erf_045 = Ok High.
Proof.
  split; [|by vm_compute].
  intros r (Hb & Hd & _ & _) H. open_classifier.
  destruct (_ || _); [done|].
  destruct H as [H | H].
  - by rewrite (present_below_fires r erf_b31g _ _ H).
  - rule_lt r erf_b31g; [done|].
    by rewrite (present_below_fires r erf_dnv _ _ H).
Qed.

(** C3, amended. A defect record that triggers none of the five High
    rules and whose [erf_b31g] is present and below 0.5, or whose [erf_dnv]
    is present and below 0.5, or whose [depth_pct] is present and above 25,
    is classified Medium. The record {erf_b31g: 0.6, depth_pct: 30,
    wall_thickness_remaining_mm: 10, repair_flag: ""} triggers rule 2
    (0.6 < 0.8) and is classified High. *)
Theorem medium_tier_after_high_rules :
  (forall r : row,
     defect_record r ->
     ~ flagged repr_float r ->
     ~ present_below r erf_b31g (Num.Flt 0.8) ->
     ~ present_below r erf_dnv (Num.Flt 0.8) ->
     ~ present_below r wall_thickness_remaining_mm (Num.Flt 3.0) ->
     ~ present_above r depth_pct (Num.Int 40) ->
     present_below r erf_b31g (Num.Flt 0.5) \/ present_below r erf_dnv (Num.Flt 0.5)
     \/ present_above r depth_pct (Num.Int 25) ->
     assign_risk_class repr_float r = Ok Medium) /\
  present_below record_erf_06 erf_b31g (Num.Flt 0.8) /\
  assign_risk_class repr_float record_erf_06 = Ok High.
Proof.
  split; [|split; [by exists (PFloat 0.6) | by vm_compute]].
  intros r (Hb & Hd & Hw & Hp) H1 H2 H3 H4 H5 H. open_classifier.
  rewrite (flag_test_not_flagged r H1).
  rewrite (not_below_passes r erf_b31g _ _ Hb H2) by reflexivity.
  rewrite (not_below_passes r erf_dnv _ _ Hd H3) by reflexivity.
  rewrite (not_below_passes r wall_thickness_remaining_mm _ _ Hw H4) by reflexivity.
  rewrite (not_above_passes r depth_pct _ _ Hp H5) by reflexivity.
  cbn [bind].
  destruct H as [H | [H | H]].
  - by rewrite (present_below_fires r erf_b31g _ _ H).
  - rule_lt r erf_b31g; [done|].
    by rewrite (present_below_fires r erf_dnv _ _ H).
  - rule_lt r erf_b31g; [done|].
    rule_lt r erf_dnv; [done|].
    by rewrite (present_above_fires r depth_pct _ _ H).
Qed.

(** The classifier returns a tier on every defect record. *)
Lemma assign_risk_class_total (r : row) :
  defect_record r ->
  exists c, assign_risk_class repr_float r = Ok c /\ (c = High \/ c = Medium \/ c = Low).
Proof.
  intros (Hb & Hd & Hw & Hp). open_classifier.
  destruct (_ || _); [by eauto|].
  rule_lt r erf_b31g; [by eauto|].
  rule_lt r erf_dnv; [by eauto|].
  rule_lt r wall_thickness_remaining_mm; [by eauto|].
  rule_gt r depth_pct; [by eauto|].
  rule_lt r erf_b31g; [by eauto|].
  rule_lt r erf_dnv; [by eauto|].
  rule_gt r depth_pct; by eauto 6.
Qed.

(** A missing measurement weighs as an absent one: its rules do not fire. *)
Lemma missing_as_absent (r : row) (k : pystr) (v : pyval) :
  k ∈ measurements -> pd_isna v = true ->
  assign_risk_class repr_float (<[k := v]> r) = assign_risk_class repr_float (delete k r).
Proof.
  intros Hk Hv. unfold measurements in Hk.
  repeat (apply elem_of_cons in Hk as [-> | Hk]); [| | | |by apply elem_of_nil in Hk];
    open_classifier; unfold flag_text;
    rewrite ?row_get_insert_eq, ?row_get_delete_eq;
    rewrite !row_get_insert_ne, !row_get_delete_ne by done;
    rewrite ?(notna_and_lt_missing v), ?(notna_and_gt_missing v) by done;
    reflexivity.
Qed.

(** With every measurement missing or absent, the repair flag decides. *)
Lemma blank_record_is_Low (r : row) :
  Forall (absent_or_missing r) measurements -> no_flag_text r ->
  assign_risk_class repr_float r = Ok Low.
Proof.
  unfold measurements. intros Hm Hf.
  apply Forall_cons in Hm as [Hb Hm]. apply Forall_cons in Hm as [Hd Hm].
  apply Forall_cons in Hm as [Hw Hm]. apply Forall_cons in Hm as [Hp _].
  open_classifier.
  rewrite (absent_or_missing_passes_lt r erf_b31g _ _ Hb) by reflexivity.
  rewrite (absent_or_missing_passes_lt r erf_dnv _ _ Hd) by reflexivity.
  rewrite (absent_or_missing_passes_lt r wall_thickness_remaining_mm _ _ Hw) by reflexivity.
  rewrite (absent_or_missing_passes_gt r depth_pct _ _ Hp) by reflexivity.
  rewrite (absent_or_missing_passes_lt r erf_b31g _ _ Hb) by reflexivity.
  rewrite (absent_or_missing_passes_lt r erf_dnv _ _ Hd) by reflexivity.
  rewrite (absent_or_missing_passes_gt r depth_pct _ _ Hp) by reflexivity.
  cbn [bind].
  replace (_ || _) with false; [done|].
  unfold no_flag_text in Hf. unfold flag_text, row_get.
  destruct (r !! repair_flag) as [v|]; [|done].
  destruct Hf as [Hna | ->]; [|done].
  destruct v; try discriminate; [done|].
  simpl in Hna. unfold py_str. by rewrite Hna.
Qed.

(** C7. The classifier is total on defect records: whatever measurements
    are present, missing or absent, it returns High, Medium or Low and
    raises nothing; a missing measurement weighs as an absent one, so its
    rules do not fire; and a record with every measurement missing and no
    repair flag text is Low. *)
Theorem assign_risk_class_is_total :
  (forall r : row,
     defect_record r ->
     exists c, assign_risk_class repr_float r = Ok c /\ (c = High \/ c = Medium \/ c = Low)) /\
  (forall (r : row) k v,
     k ∈ measurements -> pd_isna v = true ->
     assign_risk_class repr_float (<[k := v]> r)
     = assign_risk_class repr_float (delete k r)) /\
  (forall r : row,
     Forall (absent_or_missing r) measurements -> no_flag_text r ->
     assign_risk_class repr_float r = Ok Low).
Proof.
  split; [exact assign_risk_class_total|].
  split; [exact missing_as_absent | exact blank_record_is_Low].
Qed.

End ClassifierProperties.

(** ** Properties of frames and of the store *)

Lemma mapM_length {A B} (f : A -> result B) l bs :
  mapM f l = Ok bs -> length bs = length l.
Proof.
  revert bs. induction l as [|a l IH]; intros bs; simpl.
  - by intros [= <-].
  - destruct (f a); [|done]. simpl.
    destruct (mapM f l) as [bs'|]; [|done]. simpl.
    intros [= <-]. simpl. by rewrite (IH bs').
Qed.

Lemma mapM_Ok_Forall2 {A B} (f : A -> result B) l bs :
  mapM f l = Ok bs <-> Forall2 (fun a b => f a = Ok b) l bs.
Proof.
  revert bs. induction l as [|a l IH]; intros bs; simpl.
  - split; [intros [= <-]; constructor | by inversion 1].
  - split.
    + destruct (f a) as [b|] eqn:E; [|done]. simpl.
      destruct (mapM f l) as [bs'|]; [|done]. simpl.
      intros [= <-]. constructor; [done | by apply IH].
    + inversion 1 as [|? b ? bs' Hb Hbs]; subst. rewrite Hb. simpl.
      apply IH in Hbs. by rewrite Hbs.
Qed.

Lemma has_column_set_column k j vals d :
  has_column k (set_column j vals d) = has_column k d || bool_decide (k = j).
Proof.
  unfold has_column at 1, set_column. cbn [columns].
  destruct (has_column j d) eqn:Ej.
  - unfold has_column in *. destruct (bool_decide (k = j)) eqn:Ek.
    + apply bool_decide_eq_true in Ek as ->. by rewrite Ej.
    + by rewrite orb_false_r.
  - unfold has_column. apply eq_true_iff_eq.
    rewrite bool_decide_eq_true, orb_true_iff, !bool_decide_eq_true.
    rewrite elem_of_app, list_elem_of_singleton. tauto.
Qed.

Lemma has_column_enriched k tiers priorities d :
  k <> risk_class -> k <> repair_priority ->
  has_column k (enriched tiers priorities d) = has_column k d.
Proof.
  intros H1 H2. unfold enriched. rewrite !has_column_set_column.
  rewrite !bool_decide_eq_false_2 by done. by rewrite !orb_false_r.
Qed.

Lemma has_column_enriched_risk_class tiers priorities d :
  has_column risk_class (enriched tiers priorities d) = true.
Proof.
  unfold enriched. rewrite !has_column_set_column.
  rewrite (bool_decide_eq_true_2 (risk_class = risk_class)) by done.
  by rewrite orb_true_r.
Qed.

Lemma rows_enriched tiers priorities d :
  rows (enriched tiers priorities d)
  = zip_with (fun r v => <[repair_priority := v]> r)
      (zip_with (fun r v => <[risk_class := v]> r) (rows d) tiers) priorities.
Proof. reflexivity. Qed.

Lemma length_rows_enriched tiers priorities d :
  length tiers = length (rows d) -> length priorities = length (rows d) ->
  length (rows (enriched tiers priorities d)) = length (rows d).
Proof. intros H1 H2. rewrite rows_enriched, !length_zip_with. lia. Qed.

Lemma frame_at_lookup (st : store) l d : st !! l = Some d -> frame_at st l = d.
Proof. intros H. unfold frame_at. by rewrite H. Qed.

Lemma frame_at_insert (st : store) l d : frame_at (<[l := d]> st) l = d.
Proof. unfold frame_at. by rewrite lookup_insert_eq. Qed.

(** The run of the aggregator, step by step: the copy is made at a fresh
    reference, both columns are set on the copy, the summary is read off it. *)
Lemma compute_inspection_summary_run repr_float (st : store) l meta d :
  st !! l = Some d ->
  compute_inspection_summary repr_float l meta st =
  let l' := fresh (dom st) in
  match apply_rows (risk_class_of repr_float) d with
  | Raise e => (Raise e, <[l' := d]> st)
  | Ok tiers =>
      match apply_rows assign_priority (set_column risk_class tiers d) with
      | Raise e => (Raise e, <[l' := set_column risk_class tiers d]> st)
      | Ok priorities =>
          (build_summary meta l' (enriched tiers priorities d),
           <[l' := enriched tiers priorities d]> st)
      end
  end.
Proof.
  intros Hl. unfold compute_inspection_summary, bindM, df_copy, with_frame, setitem.
  cbn zeta. rewrite (frame_at_lookup st l d Hl), frame_at_insert.
  destruct (apply_rows (risk_class_of repr_float) d) as [tiers|e]; [|done].
  rewrite frame_at_insert, insert_insert_eq.
  destruct (apply_rows assign_priority _) as [priorities|e]; [|done].
  by rewrite frame_at_insert, insert_insert_eq.
Qed.

Lemma assign_priority_on_tiers (rs : list row) (tiers : list pyval) :
  exists priorities,
    mapM assign_priority (zip_with (fun r v => <[risk_class := v]> r) rs tiers) = Ok priorities.
Proof.
  revert tiers. induction rs as [|r rs IH]; intros [|t tiers]; simpl; try by eexists.
  destruct (IH tiers) as [ps Hps]. rewrite Hps.
  unfold assign_priority at 1, row_item. rewrite lookup_insert_eq. cbn [bind].
  destruct (py_eq t (PStr High)); [by eexists|].
  destruct (py_eq t (PStr Medium)); by eexists.
Qed.

(** The cells of [risk_class] in the enriched frame are the tiers given. *)
Lemma column_risk_class_enriched tiers priorities d :
  length tiers = length (rows d) -> length priorities = length (rows d) ->
  column risk_class (enriched tiers priorities d) = Ok tiers.
Proof.
  intros H1 H2. unfold column.
  rewrite has_column_enriched_risk_class, rows_enriched.
  revert tiers priorities H1 H2.
  induction (rows d) as [|r rs IH]; intros [|t tiers] [|p ps] H1 H2; try done.
  simpl in *. unfold row_item at 1.
  rewrite lookup_insert_ne, lookup_insert_eq by done. cbn [bind].
  rewrite IH by lia. done.
Qed.

(** The other columns of the enriched frame are those of the source. *)
Lemma column_enriched k tiers priorities d :
  k <> risk_class -> k <> repair_priority ->
  length tiers = length (rows d) -> length priorities = length (rows d) ->
  column k (enriched tiers priorities d) = column k d.
Proof.
  intros Hk1 Hk2 H1 H2. unfold column.
  rewrite has_column_enriched by done.
  destruct (has_column k d); [|done]. rewrite rows_enriched.
  revert tiers priorities H1 H2.
  induction (rows d) as [|r rs IH]; intros [|t tiers] [|p ps] H1 H2; try done.
  simpl in *. unfold row_item at 1 3.
  rewrite !lookup_insert_ne by done.
  destruct (r !! k); [|done]. cbn [bind].
  rewrite IH by lia. done.
Qed.

(** Every cell is in exactly one of the three tiers, so the counts add up. *)
Lemma tier_counts_add_up (col : list pyval) :
  Forall (fun v => v = PStr High \/ v = PStr Medium \/ v = PStr Low) col ->
  (Z.of_nat (length (filter (fun v => py_eq v (PStr High) = true) col))
   + Z.of_nat (length (filter (fun v => py_eq v (PStr Medium) = true) col))
   + Z.of_nat (length (filter (fun v => py_eq v (PStr Low) = true) col))
   = Z.of_nat (length col))%Z.
Proof.
  induction 1 as [|v col Hv _ IH]; [done|].
  rewrite !filter_cons.
  destruct Hv as [-> | [-> | ->]];
    repeat match goal with
    | |- context [decide (py_eq ?a ?b = true)] =>
        let Hd := fresh in
        destruct (decide (py_eq a b = true)) as [Hd | Hd];
        vm_compute in Hd; [try discriminate Hd | try (by destruct Hd)]
    end; simpl length; lia.
Qed.

Lemma column_of_defect_table k d :
  defect_table d -> has_column k d = true ->
  exists col, column k d = Ok col /\ Forall2 (fun (r : row) v => r !! k = Some v) (rows d) col.
Proof.
  unfold defect_table, column, has_column. intros Hd Hk. rewrite Hk.
  apply bool_decide_eq_true in Hk.
  induction Hd as [|r rs [Hr _] _ IH]; simpl.
  - exists []. split; [done | constructor].
  - rewrite Forall_forall in Hr. destruct (Hr k Hk) as [v Hv].
    destruct IH as [col [Hcol Hall]].
    exists (v :: col). unfold row_item at 1. rewrite Hv, Hcol. split; [done|].
    by constructor.
Qed.

Lemma measurement_cells k d col :
  defect_table d -> k ∈ measurements ->
  Forall2 (fun (r : row) v => r !! k = Some v) (rows d) col ->
  Forall float_or_missing col.
Proof.
  unfold defect_table. intros Hd Hk Hcol.
  induction Hcol as [|r v rs col Hv _ IH]; [constructor|].
  apply Forall_cons in Hd as [[_ Hr] Hd]. constructor; [|by apply IH].
  rewrite Forall_forall in Hr. by apply (Hr k Hk).
Qed.

Lemma py_float_ok v :
  float_or_missing v -> pd_isna v = false -> exists x, py_float v = Ok x.
Proof.
  destruct v as [|b|z|f|s]; simpl; try done; try by eexists.
  intros Hz _. unfold Num.float_of_int.
  destruct (Z.leb_spec Num.overflow_bound (Z.abs z)); [lia | by eexists].
Qed.

Lemma present_values_ok col :
  Forall float_or_missing col -> exists xs, present_values col = Ok xs.
Proof.
  induction 1 as [|v col Hv _ [xs IH]]; simpl; [by eexists|].
  destruct (pd_isna v) eqn:Hna; [by eexists|].
  destruct (py_float_ok v Hv Hna) as [x ->]. rewrite IH. by eexists.
Qed.

Lemma series_mean_ok col :
  Forall float_or_missing col -> exists x, series_mean col = Ok x.
Proof.
  intros H. unfold series_mean. destruct (present_values_ok col H) as [xs ->].
  destruct xs; by eexists.
Qed.

Lemma series_max_ok col :
  Forall float_or_missing col -> exists x, series_max col = Ok x.
Proof.
  intros H. unfold series_max. destruct (present_values_ok col H) as [xs ->].
  destruct xs; by eexists.
Qed.

Lemma series_min_ok col :
  Forall float_or_missing col -> exists x, series_min col = Ok x.
Proof.
  intros H. unfold series_min. destruct (present_values_ok col H) as [xs ->].
  destruct xs; by eexists.
Qed.

(** ** Properties of the aggregator *)

Section AggregatorProperties.

Variable repr_float : float -> pystr.

Ltac open_classifier :=
  unfold assign_risk_class, RISK_THRESHOLDS;
  cbn [erf_high_risk erf_medium_risk wall_thickness_critical depth_critical depth_high].

(** Whatever the record, a tier that is returned is one of the three. *)
Lemma assign_risk_class_range (r : row) c :
  assign_risk_class repr_float r = Ok c -> c = High \/ c = Medium \/ c = Low.
Proof.
  open_classifier.
  destruct (_ || _); [intros [= <-]; tauto|].
  repeat match goal with
  | |- context [bind ?x _] =>
      destruct x as [[|]|]; cbn [bind]; [intros [= <-]; tauto | | done]
  end.
  intros [= <-]; tauto.
Qed.

Lemma risk_class_of_range (rs : list row) tiers :
  mapM (risk_class_of repr_float) rs = Ok tiers ->
  Forall (fun v => v = PStr High \/ v = PStr Medium \/ v = PStr Low) tiers.
Proof.
  rewrite mapM_Ok_Forall2. induction 1 as [|r v rs tiers Hv _ IH]; constructor; [|done].
  unfold risk_class_of, fmap_result in Hv.
  destruct (assign_risk_class repr_float r) as [c|] eqn:E; [|done].
  injection Hv as <-. apply assign_risk_class_range in E.
  destruct E as [-> | [-> | ->]]; auto.
Qed.

Lemma float_or_missing_numeric v : float_or_missing v -> numeric_or_missing v.
Proof. by destruct v. Qed.

Lemma risk_class_of_defect_table d :
  defect_table d -> exists tiers, apply_rows (risk_class_of repr_float) d = Ok tiers.
Proof.
  unfold defect_table, apply_rows.
  induction 1 as [|r rs [_ Hr] _ [tiers IH]]; simpl; [by eexists|].
  assert (defect_record r) as Hrec.
  { rewrite Forall_forall in Hr. unfold defect_record, numeric_field.
    repeat split; intros v Hv; apply float_or_missing_numeric;
      (eapply Hr; [|exact Hv]); unfold measurements; set_solver. }
  destruct (assign_risk_class_total repr_float r Hrec) as [c [Hc _]].
  unfold risk_class_of at 1, fmap_result. rewrite Hc, IH. by eexists.
Qed.

(** The counts of a summary read off the enriched frame. *)
Lemma build_summary_counts meta l tiers priorities d s :
  length tiers = length (rows d) -> length priorities = length (rows d) ->
  Forall (fun v => v = PStr High \/ v = PStr Medium \/ v = PStr Low) tiers ->
  build_summary meta l (enriched tiers priorities d) = Ok s ->
  n_High (by_risk s) + n_Medium (by_risk s) + n_Low (by_risk s)
    = total_defects (overview s) /\
  total_defects (overview s) = Z.of_nat (length (rows d)) /\
  table s = l.
Proof.
  intros H1 H2 Ht. unfold build_summary, count_tier.
  rewrite column_risk_class_enriched by done. cbn [bind].
  repeat match goal with
  | |- context [bind ?x _] => destruct x; cbn [bind]; [|done]
  end.
  intros [= <-]. cbn [overview by_risk total_defects n_High n_Medium n_Low table].
  rewrite !length_zip_with, tier_counts_add_up by done. lia.
Qed.

Lemma counts_if_present_enriched k tiers priorities d :
  k <> risk_class -> k <> repair_priority ->
  length tiers = length (rows d) -> length priorities = length (rows d) ->
  defect_table d ->
  exists cs, counts_if_present k (enriched tiers priorities d) = Ok cs.
Proof.
  intros Hk1 Hk2 H1 H2 Hd. unfold counts_if_present.
  rewrite has_column_enriched, column_enriched by done.
  destruct (has_column k d) eqn:E; [|by eexists].
  destruct (column_of_defect_table k d Hd E) as [col [-> _]]. by eexists.
Qed.

Lemma stat_if_present_enriched agg k tiers priorities d :
  (forall col, Forall float_or_missing col -> exists x, agg col = Ok x) ->
  k ∈ measurements ->
  length tiers = length (rows d) -> length priorities = length (rows d) ->
  defect_table d ->
  exists o, stat_if_present agg k (enriched tiers priorities d) = Ok o.
Proof.
  intros Hagg Hk H1 H2 Hd.
  assert (k <> risk_class /\ k <> repair_priority) as [Hk1 Hk2].
  { unfold measurements in Hk.
    repeat (apply elem_of_cons in Hk as [-> | Hk]); try done.
    by apply elem_of_nil in Hk. }
  unfold stat_if_present.
  rewrite has_column_enriched, column_enriched by done.
  destruct (has_column k d) eqn:E; [|by eexists].
  destruct (column_of_defect_table k d Hd E) as [col [-> Hcol]]. cbn [bind].
  destruct (Hagg col (measurement_cells k d col Hd Hk Hcol)) as [x ->]. by eexists.
Qed.

Lemma build_summary_ok meta l tiers priorities d :
  length tiers = length (rows d) -> length priorities = length (rows d) ->
  defect_table d ->
  exists s, build_summary meta l (enriched tiers priorities d) = Ok s.
Proof.
  intros H1 H2 Hd. unfold build_summary, count_tier.
  rewrite column_risk_class_enriched by done. cbn [bind].
  destruct (counts_if_present_enriched anomaly_type tiers priorities d) as [? ->]; try done.
  destruct (counts_if_present_enriched repair_flag tiers priorities d) as [? ->]; try done.
  cbn [bind].
  destruct (stat_if_present_enriched series_mean depth_pct tiers priorities d)
    as [? ->]; try done; [exact series_mean_ok | unfold measurements; set_solver |].
  destruct (stat_if_present_enriched series_max depth_pct tiers priorities d)
    as [? ->]; try done; [exact series_max_ok | unfold measurements; set_solver |].
  destruct (stat_if_present_enriched series_mean erf_b31g tiers priorities d)
    as [? ->]; try done; [exact series_mean_ok | unfold measurements; set_solver |].
  destruct (stat_if_present_enriched series_min erf_b31g tiers priorities d)
    as [? ->]; try done; [exact series_min_ok | unfold measurements; set_solver |].
  destruct (stat_if_present_enriched series_mean wall_thickness_remaining_mm
              tiers priorities d)
    as [? ->]; try done; [exact series_mean_ok | unfold measurements; set_solver |].
  cbn [bind]. by eexists.
Qed.

Lemma count_tier_no_rows tier d :
  rows d = [] -> count_tier tier (enriched [] [] d) = Ok 0.
Proof.
  intros Hrows. unfold count_tier, column.
  by rewrite has_column_enriched_risk_class, rows_enriched, Hrows.
Qed.

Lemma counts_if_present_no_rows k d :
  rows d = [] -> counts_if_present k (enriched [] [] d) = Ok [].
Proof.
  intros Hrows. unfold counts_if_present, column.
  destruct (has_column k (enriched [] [] d)); [|done].
  by rewrite rows_enriched, Hrows.
Qed.

Lemma stat_if_present_no_rows agg k d :
  agg [] = Ok nan -> k <> risk_class -> k <> repair_priority -> rows d = [] ->
  stat_if_present agg k (enriched [] [] d) = Ok (empty_statistic k d).
Proof.
  intros Hagg Hk1 Hk2 Hrows. unfold stat_if_present, column, empty_statistic.
  rewrite has_column_enriched by done.
  destruct (has_column k d); [|done].
  rewrite rows_enriched, Hrows. cbn [zip_with mapM bind]. by rewrite Hagg.
Qed.

(** The summary of a frame without rows. *)
Lemma build_summary_no_rows meta l d :
  rows d = [] ->
  exists s,
    build_summary meta l (enriched [] [] d) = Ok s /\
    total_defects (overview s) = 0 /\
    n_High (by_risk s) = 0 /\ n_Medium (by_risk s) = 0 /\ n_Low (by_risk s) = 0 /\
    avg_depth_pct (statistics s) = empty_statistic depth_pct d /\
    max_depth_pct (statistics s) = empty_statistic depth_pct d /\
    avg_erf_b31g (statistics s) = empty_statistic erf_b31g d /\
    min_erf_b31g (statistics s) = empty_statistic erf_b31g d /\
    avg_wall_remaining_mm (statistics s)
      = empty_statistic wall_thickness_remaining_mm d.
Proof.
  intros Hrows. unfold build_summary.
  rewrite !count_tier_no_rows, !counts_if_present_no_rows by done.
  rewrite !stat_if_present_no_rows by done.
  cbn [bind]. eexists. split; [reflexivity|].
  cbn [overview by_risk statistics total_defects n_High n_Medium n_Low
       avg_depth_pct max_depth_pct avg_erf_b31g min_erf_b31g avg_wall_remaining_mm].
  rewrite rows_enriched, Hrows. by repeat split.
Qed.

(** The copy lives at a reference the store did not hold. *)
Lemma fresh_reference (st : store) : st !! fresh (dom st) = None.
Proof. apply not_elem_of_dom, is_fresh. Qed.

Lemma insert_fresh_keeps (st : store) d' j d0 :
  st !! j = Some d0 -> <[fresh (dom st) := d']> st !! j = Some d0.
Proof.
  intros Hj. rewrite lookup_insert_ne; [done|].
  intros <-. by rewrite fresh_reference in Hj.
Qed.

(** The rows of the enriched frame: those of the source, with the two
    derived cells set. *)
Lemma enriched_row (tiers priorities : list pyval) (d : DataFrame) (i : nat) (r : row) :
  length tiers = length (rows d) -> length priorities = length (rows d) ->
  rows d !! i = Some r ->
  exists t p,
    tiers !! i = Some t /\ priorities !! i = Some p /\
    rows (enriched tiers priorities d) !! i
    = Some (<[repair_priority := p]> (<[risk_class := t]> r)).
Proof.
  intros H1 H2 Hr.
  assert (i < length (rows d))%nat as Hi by (by eapply lookup_lt_Some).
  destruct (lookup_lt_is_Some_2 tiers i) as [t Ht]; [lia|].
  destruct (lookup_lt_is_Some_2 priorities i) as [p Hp]; [lia|].
  exists t, p. repeat split; try done.
  rewrite rows_enriched. apply lookup_zip_with_Some.
  exists (<[risk_class := t]> r), p. repeat split; try done.
  apply lookup_zip_with_Some. by exists r, t.
Qed.

(** C4, amended. On a table without rows, its labels distinct, the
    aggregator succeeds and returns [total_defects = 0], the three risk
    counts 0, and for each of the five statistics [None] when its column is
    absent from the table and NaN, the missing marker, when its column is
    there. *)
Theorem empty_table_summary (st : store) l meta d :
  st !! l = Some d -> NoDup (columns d) -> rows d = [] ->
  exists s st',
    compute_inspection_summary repr_float l meta st = (Ok s, st') /\
    total_defects (overview s) = 0 /\
    n_High (by_risk s) = 0 /\ n_Medium (by_risk s) = 0 /\ n_Low (by_risk s) = 0 /\
    avg_depth_pct (statistics s) = empty_statistic depth_pct d /\
    max_depth_pct (statistics s) = empty_statistic depth_pct d /\
    avg_erf_b31g (statistics s) = empty_statistic erf_b31g d /\
    min_erf_b31g (statistics s) = empty_statistic erf_b31g d /\
    avg_wall_remaining_mm (statistics s)
      = empty_statistic wall_thickness_remaining_mm d.
Proof.
  intros Hl _ Hrows.
  rewrite (compute_inspection_summary_run repr_float st l meta d Hl). cbn zeta.
  unfold apply_rows. cbn [rows set_column]. rewrite Hrows. cbn [mapM zip_with].
  destruct (build_summary_no_rows meta (fresh (dom st)) d Hrows) as [s [Hs Hprops]].
  rewrite Hs. by exists s, (<[fresh (dom st) := enriched [] [] d]> st).
Qed.

(** The frames the store held are as they were after the aggregator has
    run, whether it returns or raises. *)
Lemma aggregator_keeps_store (st : store) l meta d j d0 :
  st !! l = Some d -> st !! j = Some d0 ->
  snd (compute_inspection_summary repr_float l meta st) !! j = Some d0.
Proof.
  intros Hl Hj.
  rewrite (compute_inspection_summary_run repr_float st l meta d Hl). cbn zeta.
  destruct (apply_rows (risk_class_of repr_float) d) as [tiers|e]; cbn [snd];
    [|by apply insert_fresh_keeps].
  destruct (apply_rows assign_priority _) as [priorities|e]; cbn [snd];
    by apply insert_fresh_keeps.
Qed.

(** C8, amended. The aggregator works on a copy: after it has run, every
    frame the store held, the caller's defect table among them, is as it
    was. The summary's table is a new frame; row by row it carries the
    derived [risk_class] and [repair_priority] cells, and every other field
    as in the source record. *)
Theorem summary_table_is_enriched_copy (st : store) l meta d :
  st !! l = Some d ->
  let out := compute_inspection_summary repr_float l meta st in
  (forall j d0, st !! j = Some d0 -> snd out !! j = Some d0) /\
  (forall s, fst out = Ok s ->
     st !! table s = None /\
     exists d',
       snd out !! table s = Some d' /\
       length (rows d') = length (rows d) /\
       forall (i : nat) (r : row), rows d !! i = Some r ->
         exists r' : row,
           rows d' !! i = Some r' /\
           is_Some (r' !! risk_class) /\ is_Some (r' !! repair_priority) /\
           forall k, k <> risk_class -> k <> repair_priority -> r' !! k = r !! k).
Proof.
  intros Hl out. subst out.
  split; [intros j d0 Hj; by eapply aggregator_keeps_store|].
  rewrite (compute_inspection_summary_run repr_float st l meta d Hl). cbn zeta.
  destruct (apply_rows (risk_class_of repr_float) d) as [tiers|e] eqn:Ht; cbn [fst snd];
    [|done].
  destruct (apply_rows assign_priority _) as [priorities|e] eqn:Hp; cbn [fst snd];
    [|done].
  intros s Hs.
  assert (length tiers = length (rows d)) as H1 by (by eapply mapM_length).
  assert (length priorities = length (rows d)) as H2.
  { apply mapM_length in Hp. cbn [rows set_column] in Hp.
    rewrite length_zip_with in Hp. lia. }
  destruct (build_summary_counts meta (fresh (dom st)) tiers priorities d s H1 H2)
    as (_ & _ & ->); [by eapply risk_class_of_range | exact Hs |].
  split; [apply fresh_reference|].
  exists (enriched tiers priorities d). rewrite lookup_insert_eq.
  split; [done|]. split; [by apply length_rows_enriched|].
  intros i r Hr.
  destruct (enriched_row tiers priorities d i r H1 H2 Hr) as (t & p & _ & _ & Hrow).
  eexists. split; [exact Hrow|].
  split; [by rewrite lookup_insert_ne, lookup_insert_eq|].
  split; [by rewrite lookup_insert_eq|].
  intros k Hk1 Hk2. by rewrite !lookup_insert_ne.
Qed.

(** C10. The summary of a defect table, empty or not, its labels
    distinct, has its three [by_risk] entries (High, Medium and Low are the
    fields of the literal), and they add up to [total_defects], the number
    of rows: every record is in exactly one tier. The aggregator does
    return that summary. *)
Theorem risk_counts_add_up_to_total (st : store) l meta d :
  st !! l = Some d -> NoDup (columns d) -> defect_table d ->
  exists s st',
    compute_inspection_summary repr_float l meta st = (Ok s, st') /\
    n_High (by_risk s) + n_Medium (by_risk s) + n_Low (by_risk s)
      = total_defects (overview s) /\
    total_defects (overview s) = Z.of_nat (length (rows d)).
Proof.
  intros Hl _ Hd.
  rewrite (compute_inspection_summary_run repr_float st l meta d Hl). cbn zeta.
  destruct (risk_class_of_defect_table d Hd) as [tiers Ht]. rewrite Ht.
  destruct (assign_priority_on_tiers (rows d) tiers) as [priorities Hp].
  unfold apply_rows at 1. cbn [rows set_column]. rewrite Hp.
  assert (length tiers = length (rows d)) as H1 by (by eapply mapM_length).
  assert (length priorities = length (rows d)) as H2.
  { apply mapM_length in Hp. rewrite length_zip_with in Hp. lia. }
  destruct (build_summary_ok meta (fresh (dom st)) tiers priorities d H1 H2 Hd) as [s Hs].
  rewrite Hs. exists s, (<[fresh (dom st) := enriched tiers priorities d]> st).
  split; [done|].
  destruct (build_summary_counts meta (fresh (dom st)) tiers priorities d s H1 H2)
    as (Hsum & Htot & _); [by eapply risk_class_of_range | exact Hs | done].
Qed.

End AggregatorProperties.

(** ** Properties of the normalizer *)

Lemma py_eq_empty_text v : py_eq v (PStr []) = true <-> v = PStr [].
Proof.
  destruct v as [|b|z|f|s]; simpl; try (split; [discriminate | done]).
  unfold Text.eqb. rewrite bool_decide_eq_true. split; [by intros -> | by intros [= ->]].
Qed.

Section NormalizerProperties.

Variable repr_float : float -> pystr.

(** X19. On every scalar except an integer outside the float
    range (of magnitude 2^1024 - 2^970 or more, where [float] raises
    [OverflowError]) the coercion raises nothing and returns a float: NaN,
    the missing marker, for a missing or empty value; [float(val)] for a
    number; for any other text, the text with commas turned to dots and
    stripped of white space, read as a float, and NaN (never zero) when it
    does not read as one. "12,5" is coerced to 12.5, and so is the same
    number in Arabic-Indic digits; " 1 234,5 ", with a blank inside, is
    coerced to NaN. *)
Theorem clean_numeric_coerces :
  (forall val : pyval,
     (forall z, val = PInt z -> Z.abs z < Num.overflow_bound) ->
     exists x,
       clean_numeric repr_float val = Ok x /\
       (pd_isna val = true \/ val = PStr [] -> x = nan) /\
       (pd_isna val = false -> is_int_or_float val = true -> py_float val = Ok x) /\
       (forall s, val = PStr s -> s <> [] ->
          x = match Num.float_of_str (Text.strip (Text.replace 0x2C 0x2E s)) with
              | Some f => f
              | None => nan
              end)) /\
  clean_numeric repr_float (PStr (u8 "12,5")) = Ok 12.5%float /\
  clean_numeric repr_float (PStr (u8 "١٢,٥")) = Ok 12.5%float /\
  clean_numeric repr_float (PStr (u8 " 1 234,5 ")) = Ok nan.
Proof.
  split; [|by vm_compute].
  intros val Hint. unfold clean_numeric.
  destruct (pd_isna val) eqn:Hna; cbn [orb].
  { exists nan. repeat split; try done. intros s ->. discriminate. }
  destruct (py_eq val (PStr [])) eqn:Hempty.
  { apply py_eq_empty_text in Hempty as ->. exists nan.
    repeat split; try done. intros s [= <-] Hs. by destruct Hs. }
  assert (val <> PStr []) as Hne.
  { intros Heq. apply py_eq_empty_text in Heq. congruence. }
  destruct val as [|b|z|f|s]; cbn [is_int_or_float py_float py_str]; try discriminate.
  - eexists. repeat split; try done. by intros [|].
  - unfold Num.float_of_int.
    destruct (Z.leb_spec Num.overflow_bound (Z.abs z)) as [Hbig|_].
    { specialize (Hint z eq_refl). lia. }
    eexists. repeat split; try done. by intros [|].
  - exists f. repeat split; try done. by intros [|].
  - destruct (Num.float_of_str _) as [x|] eqn:E.
    + exists x. repeat split; try done; [by intros [|] | by intros s' [= <-] _; rewrite E].
    + exists nan. repeat split; try done. by intros s' [= <-] _; rewrite E.
Qed.

End NormalizerProperties.

(** *** Column renaming *)

Lemma key_matches_mentions key h : key_matches key h = true <-> mentions key h.
Proof. apply contains_lower_mentions. Qed.

Lemma key_mismatch_not_mentions key h : key_matches key h = false -> ~ mentions key h.
Proof. intros H Hm. apply key_matches_mentions in Hm. congruence. Qed.

Lemma scan_mapping_first_match items pre key target post h :
  items = pre ++ (key, target) :: post ->
  mentions key h ->
  Forall (fun kv : pystr * pystr => ~ mentions kv.1 h) pre ->
  scan_mapping items h = Some target.
Proof.
  intros -> Hkey Hpre. induction Hpre as [|[k v] pre Hk _ IH]; simpl.
  - apply key_matches_mentions in Hkey. by rewrite Hkey.
  - destruct (key_matches k h) eqn:E; [|done].
    apply key_matches_mentions in E. by destruct Hk.
Qed.

Lemma scan_mapping_no_match items h :
  Forall (fun kv : pystr * pystr => ~ mentions kv.1 h) items ->
  scan_mapping items h = None.
Proof.
  induction 1 as [|[k v] items Hk _ IH]; simpl; [done|].
  destruct (key_matches k h) eqn:E; [|done].
  apply key_matches_mentions in E. by destruct Hk.
Qed.

(** What the outer loop leaves in [rename_dict] under a label: the target
    found for it, if the label is one of the columns. *)
Lemma fold_rename_dict_lookup (items : list (pystr * pystr)) (cols : list pystr)
    (acc : gmap pystr pystr) (h : pystr) :
  fold_left
    (fun rename_dict old_col =>
       match scan_mapping items old_col with
       | Some val => <[old_col := val]> rename_dict
       | None => rename_dict
       end) cols acc !! h
  = match (if bool_decide (h ∈ cols) then scan_mapping items h else None) with
    | Some val => Some val
    | None => acc !! h
    end.
Proof.
  revert acc. induction cols as [|c cols IH]; intros acc; simpl; [done|].
  rewrite IH. destruct (decide (h ∈ cols)) as [Hin | Hnin].
  - rewrite !bool_decide_eq_true_2 by (rewrite ?elem_of_cons; auto).
    destruct (scan_mapping items h) as [v|] eqn:Eh; [done|].
    destruct (scan_mapping items c) as [v|] eqn:Ec; [|done].
    rewrite lookup_insert_ne; [done | congruence].
  - rewrite (bool_decide_eq_false_2 (h ∈ cols)) by done.
    destruct (decide (h = c)) as [-> | Hne].
    + rewrite bool_decide_eq_true_2 by (apply elem_of_cons; auto).
      destruct (scan_mapping items c) as [v|] eqn:Ec; [by rewrite lookup_insert_eq | done].
    + rewrite bool_decide_eq_false_2 by (by apply not_elem_of_cons).
      destruct (scan_mapping items c) as [v|] eqn:Ec; [by rewrite lookup_insert_ne | done].
Qed.

Lemma normalized_columns_lookup (cols : list pystr) (i : nat) (h : pystr) :
  cols !! i = Some h ->
  normalized_columns cols !! i
  = Some (match scan_mapping COLUMN_MAPPING h with Some val => val | None => h end).
Proof.
  intros Hi. unfold normalized_columns, rename, build_rename_dict.
  rewrite list_lookup_fmap, Hi. cbn [fmap option_fmap option_map].
  rewrite fold_rename_dict_lookup, lookup_empty.
  rewrite bool_decide_eq_true_2 by (by eapply list_elem_of_lookup_2).
  by destruct (scan_mapping COLUMN_MAPPING h).
Qed.

(** C9. Every raw column header is renamed to the target of the first
    entry of the mapping table, in its declared order, whose key is a
    substring of the header up to letter case; each column gets one name, so
    at most one entry applies to it; a header no key matches keeps its
    name. *)
Theorem header_renamed_by_first_match (cols : list pystr) (i : nat) (h : pystr) :
  cols !! i = Some h ->
  length (normalized_columns cols) = length cols /\
  (forall pre key target post,
     COLUMN_MAPPING = pre ++ (key, target) :: post ->
     mentions key h ->
     Forall (fun kv : pystr * pystr => ~ mentions kv.1 h) pre ->
     normalized_columns cols !! i = Some target) /\
  (Forall (fun kv : pystr * pystr => ~ mentions kv.1 h) COLUMN_MAPPING ->
   normalized_columns cols !! i = Some h).
Proof.
  intros Hi. split; [|split].
  - unfold normalized_columns, rename. apply length_map.
  - intros pre key target post Hmap Hkey Hpre.
    rewrite (normalized_columns_lookup cols i h Hi).
    by rewrite (scan_mapping_first_match _ pre key target post h Hmap Hkey Hpre).
  - intros Hnone. rewrite (normalized_columns_lookup cols i h Hi).
    by rewrite (scan_mapping_no_match _ h Hnone).
Qed.

(** ** Properties of the comparator *)




(** ** The properties at work on the sample data *)

(** Looking a field up in a sample record. *)
Ltac sample_field :=
  let v := fresh "v" in
  let Hv := fresh "Hv" in
  intros v Hv; vm_compute in Hv;
  first [discriminate Hv | injection Hv as <-; first [exact I | by vm_compute]].

Ltac sample_record := repeat split; sample_field.

Ltac sample_present :=
  repeat (apply Forall_cons_2; [vm_compute; eexists; reflexivity|]);
  apply Forall_nil_2.

Ltac sample_numeric :=
  repeat (apply Forall_cons_2; [sample_field|]);
  apply Forall_nil_2.

Ltac sample_table :=
  unfold defect_table; cbn [rows columns frame_three frame_headers_only];
  repeat (apply Forall_cons_2; [split; [sample_present | sample_numeric]|]);
  apply Forall_nil_2.

Ltac sample_labels := apply (bool_decide_unpack _); by vm_compute.

Ltac sample_not_present :=
  let v := fresh "v" in
  let Hv := fresh "Hv" in
  let Hna := fresh "Hna" in
  let Hc := fresh "Hc" in
  intros (v & Hv & Hna & Hc); vm_compute in Hv;
  first [discriminate Hv | injection Hv as <-; vm_compute in Hc; discriminate Hc].

Lemma repair_marker_classifies_High_witness :
  record_mandate !! repair_flag = Some (PStr (u8 "Ремонт ОБЯЗАТЕЛЕН")) /\
  Forall (absent_or_missing record_mandate) measurements /\
  assign_risk_class repr_unused record_mandate = Ok High.
Proof.
  split; [by vm_compute|]. split; [by repeat constructor|].
  apply (repair_marker_classifies_High repr_unused record_mandate (u8 "Ремонт ОБЯЗАТЕЛЕН"));
    [by vm_compute|].
  left. exists (u8 "Ремонт "), (u8 "ОБЯЗАТЕЛЕН"), []. by vm_compute.
Defined.

Lemma erf_below_high_threshold_classifies_High_witness :
  present_below record_erf_045 erf_b31g (Num.Flt 0.8) /\
  assign_risk_class repr_unused record_erf_045 = Ok High.
Proof.
  assert (present_below record_erf_045 erf_b31g (Num.Flt 0.8)) as H
    by (by exists (PFloat 0.45)).
  split; [exact H|].
  apply (proj1 (erf_below_high_threshold_classifies_High repr_unused) record_erf_045);
    [sample_record | by left].
Defined.

Lemma medium_tier_after_high_rules_witness :
  present_above record_depth_30 depth_pct (Num.Int 25) /\
  assign_risk_class repr_unused record_depth_30 = Ok Medium.
Proof.
  assert (present_above record_depth_30 depth_pct (Num.Int 25)) as H
    by (by exists (PInt 30)).
  split; [exact H|].
  apply (proj1 (medium_tier_after_high_rules repr_unused) record_depth_30).
  - sample_record.
  - apply not_flagged_by_test. by vm_compute.
  - sample_not_present.
  - sample_not_present.
  - sample_not_present.
  - sample_not_present.
  - by right; right.
Defined.

(** The scenario of the specification for the Medium tier is classified
    High: its [erf_b31g] of 0.6 is below 0.8. *)
Lemma medium_scenario_is_High :
  assign_risk_class repr_unused record_erf_06 = Ok High /\ High <> Medium.
Proof. split; [by vm_compute | discriminate]. Qed.

Lemma assign_risk_class_is_total_witness :
  (exists c, assign_risk_class repr_unused record_blank = Ok c /\
             (c = High \/ c = Medium \/ c = Low)) /\
  assign_risk_class repr_unused (<[depth_pct := PFloat nan]> record_erf_045)
  = assign_risk_class repr_unused (delete depth_pct record_erf_045) /\
  assign_risk_class repr_unused record_blank = Ok Low.
Proof.
  destruct (assign_risk_class_is_total repr_unused) as (Htotal & Hmissing & Hblank).
  split; [apply Htotal; sample_record|].
  split; [apply Hmissing; [unfold measurements; set_solver | done]|].
  apply Hblank; [by repeat constructor | by right].
Defined.

Lemma empty_table_summary_witness :
  exists s st',
    compute_inspection_summary repr_unused 1%positive ∅ (store_of frame_headers_only)
    = (Ok s, st') /\
    total_defects (overview s) = 0 /\
    n_High (by_risk s) = 0 /\ n_Medium (by_risk s) = 0 /\ n_Low (by_risk s) = 0 /\
    avg_depth_pct (statistics s) = empty_statistic depth_pct frame_headers_only /\
    max_depth_pct (statistics s) = empty_statistic depth_pct frame_headers_only /\
    avg_erf_b31g (statistics s) = empty_statistic erf_b31g frame_headers_only /\
    min_erf_b31g (statistics s) = empty_statistic erf_b31g frame_headers_only /\
    avg_wall_remaining_mm (statistics s)
      = empty_statistic wall_thickness_remaining_mm frame_headers_only.
Proof.
  apply (empty_table_summary repr_unused (store_of frame_headers_only) 1%positive ∅
           frame_headers_only); [reflexivity | sample_labels | reflexivity].
Defined.

(** On a sheet with its header row and no defect, the statistics of the
    columns that are there are NaN, not [None]. *)
Lemma headers_only_statistics_are_NaN :
  (fun s => (avg_depth_pct (statistics s), max_depth_pct (statistics s),
             avg_erf_b31g (statistics s), min_erf_b31g (statistics s),
             avg_wall_remaining_mm (statistics s)))
    <$$> fst (compute_inspection_summary repr_unused 1%positive ∅
                (store_of frame_headers_only))
  = Ok (Some nan, Some nan, Some nan, Some nan, None) /\
  Some nan <> @None float.
Proof. split; [by vm_compute | discriminate]. Qed.

Lemma clean_numeric_coerces_witness :
  exists x,
    clean_numeric repr_unused (PStr (u8 " 1 234,5 ")) = Ok x /\ x = nan.
Proof.
  destruct (proj1 (clean_numeric_coerces repr_unused) (PStr (u8 " 1 234,5 ")))
    as (x & Hx & _ & _ & Htext); [discriminate|].
  exists x. split; [exact Hx|].
  rewrite (Htext _ eq_refl) by discriminate. by vm_compute.
Defined.

(** C5. The coercion breaks the claim on an integer outside the float
    range: [float(val)], which unlike [float(str_val)] is not under the
    [try], raises [OverflowError]. *)
Lemma clean_numeric_raises_on_huge_int :
  clean_numeric repr_unused (PInt (2 ^ 1024)) = Raise OverflowError.
Proof. by vm_compute. Qed.


Lemma summary_table_is_enriched_copy_witness :
  snd (compute_inspection_summary repr_unused 1%positive ∅ (store_of frame_three))
    !! 1%positive = Some frame_three.
Proof.
  apply (proj1 (summary_table_is_enriched_copy repr_unused (store_of frame_three)
                  1%positive ∅ frame_three eq_refl)).
  reflexivity.
Defined.

(** After the aggregator has run, the caller's table has no [risk_class]
    column and none of its records a [risk_class] field. *)
Lemma source_table_not_enriched :
  snd (compute_inspection_summary repr_unused 1%positive ∅ (store_of frame_three))
    !! 1%positive = Some frame_three /\
  has_column risk_class frame_three = false /\
  map (fun r : row => r !! risk_class) (rows frame_three) = [None; None; None].
Proof.
  split; [by apply (aggregator_keeps_store repr_unused _ _ _ frame_three)|].
  split; by vm_compute.
Qed.

Lemma header_renamed_by_first_match_witness :
  mentions (u8 "глубина [%]") (u8 "Средняя глубина [%]") /\
  mentions (u8 "средняя глубина [%]") (u8 "Средняя глубина [%]") /\
  normalized_columns [u8 "Средняя глубина [%]"; u8 "Примечание"] !! 0%nat = Some depth_pct /\
  normalized_columns [u8 "Средняя глубина [%]"; u8 "Примечание"] !! 1%nat
  = Some (u8 "Примечание").
Proof.
  assert (mentions (u8 "глубина [%]") (u8 "Средняя глубина [%]")) as Hkey
    by (by apply key_matches_mentions).
  split; [exact Hkey|].
  split; [by apply key_matches_mentions|].
  split.
  - apply (proj1 (proj2 (header_renamed_by_first_match
                           [u8 "Средняя глубина [%]"; u8 "Примечание"] 0
                           (u8 "Средняя глубина [%]") eq_refl))
             (take 11 COLUMN_MAPPING) (u8 "глубина [%]") depth_pct
             (drop 12 COLUMN_MAPPING));
      [reflexivity | exact Hkey |].
    repeat constructor; by apply key_mismatch_not_mentions.
  - apply (proj2 (proj2 (header_renamed_by_first_match
                           [u8 "Средняя глубина [%]"; u8 "Примечание"] 1
                           (u8 "Примечание") eq_refl))).
    repeat constructor; by apply key_mismatch_not_mentions.
Defined.

Lemma risk_counts_add_up_to_total_witness :
  exists s st',
    compute_inspection_summary repr_unused 1%positive ∅ (store_of frame_three)
    = (Ok s, st') /\
    n_High (by_risk s) + n_Medium (by_risk s) + n_Low (by_risk s)
      = total_defects (overview s) /\
    total_defects (overview s) = 3.
Proof.
  apply (risk_counts_add_up_to_total repr_unused (store_of frame_three) 1%positive ∅
           frame_three eq_refl); [sample_labels | sample_table].
Defined.

(** ** Further properties of the classifier: the decision table *)

Lemma compare_float_spec (x y : float) :
  Num.compare_float x y = SFcompare (Prim2SF x) (Prim2SF y).
Proof.
  unfold Num.compare_float. rewrite FloatAxioms.compare_spec.
  by destruct (SFcompare (Prim2SF x) (Prim2SF y)) as [[]|].
Qed.

Lemma int_below_half_below_high (z : Z) :
  Num.compare_int_float z 0.5 = Some Lt -> Num.compare_int_float z 0.8 = Some Lt.
Proof.
  unfold Num.compare_int_float.
  change (Prim2SF 0.5) with (S754_finite false 4503599627370496 (-53)).
  change (Prim2SF 0.8) with (S754_finite false 7205759403792794 (-53)).
  cbn [Z.leb Z.compare]. change (2 ^ (- (-53))) with 9007199254740992.
  intros [= H]. f_equal.
  assert (z * 9007199254740992 < 4503599627370496) as Hlt by exact H.
  apply Z.compare_lt_iff. lia.
Qed.

Lemma compare_cont_Eq_lt (p q : positive) :
  Pos.compare_cont Eq p q = Lt <-> (p < q)%positive.
Proof. reflexivity. Qed.

Lemma float_below_half_below_high (f : float) :
  Num.compare_float f 0.5 = Some Lt -> Num.compare_float f 0.8 = Some Lt.
Proof.
  rewrite !compare_float_spec.
  change (Prim2SF 0.5) with (S754_finite false 4503599627370496 (-53)).
  change (Prim2SF 0.8) with (S754_finite false 7205759403792794 (-53)).
  destruct (Prim2SF f) as [s|s| |s m e]; cbn [SFcompare]; try done.
  destruct s; [done|].
  destruct (e ?= -53); try done.
  intros H. apply (inj Some) in H. f_equal.
  apply compare_cont_Eq_lt in H. apply compare_cont_Eq_lt.
  apply (Pos.lt_trans _ _ _ H). by vm_compute.
Qed.

(** A number below 0.5 is below 0.8. *)
Lemma ltb_half_ltb_high (x : Num.number) :
  Num.ltb x (Num.Flt 0.5) = true -> Num.ltb x (Num.Flt 0.8) = true.
Proof.
  unfold Num.ltb. destruct x as [z|f]; cbn [Num.compare].
  - destruct (Num.compare_int_float z 0.5) as [[]|] eqn:E; try discriminate.
    intros _. by rewrite (int_below_half_below_high z E).
  - destruct (Num.compare_float f 0.5) as [[]|] eqn:E; try discriminate.
    intros _. by rewrite (float_below_half_below_high f E).
Qed.

(** A number above 40 is above 25. *)
Lemma gtb_critical_gtb_high (x : Num.number) :
  Num.gtb x (Num.Int 40) = true -> Num.gtb x (Num.Int 25) = true.
Proof.
  unfold Num.gtb. destruct x as [z|f]; cbn [Num.compare].
  - destruct (Z.compare_spec z 40); cbv beta match; try discriminate. intros _.
    destruct (Z.compare_spec z 25); cbv beta match; try done; lia.
  - unfold Num.compare_int_float.
    destruct (Prim2SF f) as [s|s| |s m e]; cbn [fmap option_fmap option_map CompOpp];
      try done.
    set (v := if s then Z.neg m else Z.pos m).
    destruct (0 <=? e).
    + destruct (Z.compare_spec 40 (v * 2 ^ e)); cbn [CompOpp]; cbv beta match;
        try discriminate.
      intros _.
      destruct (Z.compare_spec 25 (v * 2 ^ e)); cbn [CompOpp]; cbv beta match;
        try done; lia.
    + assert (0 <= 2 ^ (- e)) as Hpow by (apply Z.pow_nonneg; lia).
      destruct (Z.compare_spec (40 * 2 ^ (- e)) v); cbn [CompOpp]; cbv beta match;
        try discriminate.
      intros _.
      destruct (Z.compare_spec (25 * 2 ^ (- e)) v); cbn [CompOpp]; cbv beta match;
        try done; lia.
Qed.

Lemma notna_and_lt_half_high (v : pyval) :
  notna_and_lt v (Num.Flt 0.5) = Ok true -> notna_and_lt v (Num.Flt 0.8) = Ok true.
Proof.
  unfold notna_and_lt, py_lt. destruct (pd_notna v); [|done].
  destruct (as_number v) as [x|]; [|done].
  intros [= H]. by rewrite (ltb_half_ltb_high x H).
Qed.

Lemma notna_and_gt_critical_high (v : pyval) :
  notna_and_gt v (Num.Int 40) = Ok true -> notna_and_gt v (Num.Int 25) = Ok true.
Proof.
  unfold notna_and_gt, py_gt. destruct (pd_notna v); [|done].
  destruct (as_number v) as [x|]; [|done].
  intros [= H]. by rewrite (gtb_critical_gtb_high x H).
Qed.

(** A rule on a numeric field evaluates to the truth value of "the field is
    present and beyond the threshold", when the default does not fire. *)
Lemma rule_lt_decides (r : row) (k : pystr) (d : pyval) (t : Num.number) :
  numeric_field r k -> notna_and_lt d t = Ok false ->
  exists c, notna_and_lt (row_get r k d) t = Ok c /\ (c = true <-> present_below r k t).
Proof.
  intros Hnum Hd. unfold row_get, present_below.
  destruct (r !! k) as [v|] eqn:E.
  - destruct (notna_and_lt_numeric v t (Hnum v E)) as [c Hc]. exists c.
    split; [done|]. split.
    + intros ->. exists v. unfold notna_and_lt in Hc.
      destruct (pd_notna v); [done | discriminate].
    + intros (v' & [= <-] & Hna & Hlt). unfold notna_and_lt in Hc.
      rewrite Hna, Hlt in Hc. by injection Hc.
  - exists false. split; [done|]. split; [done | by intros (v & Hv & _)].
Qed.

Lemma rule_gt_decides (r : row) (k : pystr) (d : pyval) (t : Num.number) :
  numeric_field r k -> notna_and_gt d t = Ok false ->
  exists c, notna_and_gt (row_get r k d) t = Ok c /\ (c = true <-> present_above r k t).
Proof.
  intros Hnum Hd. unfold row_get, present_above.
  destruct (r !! k) as [v|] eqn:E.
  - destruct (notna_and_gt_numeric v t (Hnum v E)) as [c Hc]. exists c.
    split; [done|]. split.
    + intros ->. exists v. unfold notna_and_gt in Hc.
      destruct (pd_notna v); [done | discriminate].
    + intros (v' & [= <-] & Hna & Hgt). unfold notna_and_gt in Hc.
      rewrite Hna, Hgt in Hc. by injection Hc.
  - exists false. split; [done|]. split; [done | by intros (v & Hv & _)].
Qed.

Section DecisionTable.

Variable repr_float : float -> pystr.

(** The three cases of the classifier on a defect record. *)
Lemma assign_risk_class_cases (r : row) :
  defect_record r ->
  (high_signal repr_float r /\ assign_risk_class repr_float r = Ok High) \/
  (~ high_signal repr_float r /\ present_above r depth_pct (Num.Int 25) /\
   assign_risk_class repr_float r = Ok Medium) \/
  (~ high_signal repr_float r /\ ~ present_above r depth_pct (Num.Int 25) /\
   assign_risk_class repr_float r = Ok Low).
Proof.
  intros (Hb & Hd & Hw & Hp).
  unfold assign_risk_class, RISK_THRESHOLDS, high_signal.
  cbn [erf_high_risk erf_medium_risk wall_thickness_critical depth_critical depth_high].
  fold (flag_text repr_float r).
  destruct (_ || _) eqn:Hflag.
  { left. split; [|done]. left. by apply flag_test_flagged. }
  apply not_flagged_by_test in Hflag.
  destruct (rule_lt_decides r erf_b31g (PFloat 1.0) (Num.Flt 0.8) Hb eq_refl)
    as (c2 & E2 & H2).
  destruct (rule_lt_decides r erf_dnv (PFloat 1.0) (Num.Flt 0.8) Hd eq_refl)
    as (c3 & E3 & H3).
  destruct (rule_lt_decides r wall_thickness_remaining_mm (PInt 100) (Num.Flt 3.0) Hw eq_refl)
    as (c4 & E4 & H4).
  destruct (rule_gt_decides r depth_pct (PInt 0) (Num.Int 40) Hp eq_refl)
    as (c5 & E5 & H5).
  destruct (rule_lt_decides r erf_b31g (PFloat 1.0) (Num.Flt 0.5) Hb eq_refl)
    as (c6 & E6 & _).
  destruct (rule_lt_decides r erf_dnv (PFloat 1.0) (Num.Flt 0.5) Hd eq_refl)
    as (c7 & E7 & _).
  destruct (rule_gt_decides r depth_pct (PInt 0) (Num.Int 25) Hp eq_refl)
    as (c8 & E8 & H8).
  rewrite E2. cbn [bind]. destruct c2; [left; split; [|done]; right; left; by apply H2|].
  rewrite E3. cbn [bind]. destruct c3; [left; split; [|done]; do 2 right; left; by apply H3|].
  rewrite E4. cbn [bind]. destruct c4; [left; split; [|done]; do 3 right; left; by apply H4|].
  rewrite E5. cbn [bind]. destruct c5; [left; split; [|done]; do 4 right; by apply H5|].
  assert (~ (flagged repr_float r \/
             present_below r erf_b31g (Num.Flt 0.8) \/
             present_below r erf_dnv (Num.Flt 0.8) \/
             present_below r wall_thickness_remaining_mm (Num.Flt 3.0) \/
             present_above r depth_pct (Num.Int 40))) as Hnone.
  { intros [H | [H | [H | [H | H]]]]; [done | | | |].
    - apply H2 in H. discriminate.
    - apply H3 in H. discriminate.
    - apply H4 in H. discriminate.
    - apply H5 in H. discriminate. }
  assert (c6 = false) as ->.
  { destruct c6; [|done]. apply notna_and_lt_half_high in E6. congruence. }
  assert (c7 = false) as ->.
  { destruct c7; [|done]. apply notna_and_lt_half_high in E7. congruence. }
  rewrite E6, E7, E8. cbn [bind]. right. destruct c8.
  - left. split; [done|]. split; [by apply H8 | done].
  - right. split; [done|]. split; [|done]. intros H. apply H8 in H. discriminate.
Qed.

(** X1. A defect record is classified High exactly when it carries one of
    the five High signals: a repair marker, [erf_b31g] or [erf_dnv] present
    and below 0.8, [wall_thickness_remaining_mm] present and below 3.0, or
    [depth_pct] present and above 40. *)
Theorem High_iff_high_signal (r : row) :
  defect_record r ->
  (assign_risk_class repr_float r = Ok High <-> high_signal repr_float r).
Proof.
  intros Hrec.
  destruct (assign_risk_class_cases r Hrec) as [[Hs E] | [(Hs & _ & E) | (Hs & _ & E)]];
    rewrite E; split; try done; discriminate.
Qed.

(** X2. A defect record is classified Medium exactly when it carries no
    High signal and its [depth_pct] is present and above 25. The ERF
    thresholds of 0.5 decide nothing: an ERF below 0.5 is below 0.8 and has
    made the record High. *)
Theorem Medium_iff_depth_only (r : row) :
  defect_record r ->
  (assign_risk_class repr_float r = Ok Medium <->
   ~ high_signal repr_float r /\ present_above r depth_pct (Num.Int 25)).
Proof.
  intros Hrec.
  destruct (assign_risk_class_cases r Hrec) as [[Hs E] | [(Hs & Hd & E) | (Hs & Hd & E)]];
    rewrite E; split; try done; try discriminate; by intros [? ?].
Qed.

(** X3. A defect record is classified Low exactly when it carries no High
    signal and its [depth_pct] is not present and above 25. *)
Theorem Low_iff_no_signal (r : row) :
  defect_record r ->
  (assign_risk_class repr_float r = Ok Low <->
   ~ high_signal repr_float r /\ ~ present_above r depth_pct (Num.Int 25)).
Proof.
  intros Hrec.
  destruct (assign_risk_class_cases r Hrec) as [[Hs E] | [(Hs & Hd & E) | (Hs & Hd & E)]];
    rewrite E; split; try done; try discriminate; by intros [? ?].
Qed.

End DecisionTable.

Lemma High_iff_high_signal_witness :
  present_below record_thin_wall wall_thickness_remaining_mm (Num.Flt 3.0) /\
  assign_risk_class repr_unused record_thin_wall = Ok High.
Proof.
  assert (present_below record_thin_wall wall_thickness_remaining_mm (Num.Flt 3.0)) as H
    by (by exists (PFloat 2.5)).
  split; [exact H|].
  apply (High_iff_high_signal repr_unused record_thin_wall); [sample_record|].
  by do 3 right; left.
Defined.

Lemma Medium_iff_depth_only_witness :
  ~ high_signal repr_unused record_depth_30 /\
  present_above record_depth_30 depth_pct (Num.Int 25).
Proof.
  apply (Medium_iff_depth_only repr_unused record_depth_30); [sample_record|].
  by vm_compute.
Defined.

Lemma Low_iff_no_signal_witness :
  ~ high_signal repr_unused record_blank /\
  ~ present_above record_blank depth_pct (Num.Int 25).
Proof.
  apply (Low_iff_no_signal repr_unused record_blank); [sample_record|].
  by vm_compute.
Defined.

(** ** Further properties of the aggregator *)

Lemma build_summary_fields meta l d s :
  build_summary meta l d = Ok s ->
  count_tier High d = Ok (n_High (by_risk s)) /\
  count_tier Medium d = Ok (n_Medium (by_risk s)) /\
  count_tier Low d = Ok (n_Low (by_risk s)) /\
  counts_if_present anomaly_type d = Ok (by_type s) /\
  counts_if_present repair_flag d = Ok (by_repair_flag s) /\
  stat_if_present series_mean depth_pct d = Ok (avg_depth_pct (statistics s)) /\
  stat_if_present series_max depth_pct d = Ok (max_depth_pct (statistics s)) /\
  stat_if_present series_mean erf_b31g d = Ok (avg_erf_b31g (statistics s)) /\
  stat_if_present series_min erf_b31g d = Ok (min_erf_b31g (statistics s)) /\
  stat_if_present series_mean wall_thickness_remaining_mm d
    = Ok (avg_wall_remaining_mm (statistics s)) /\
  total_defects (overview s) = Z.of_nat (length (rows d)) /\
  table s = l.
Proof.
  unfold build_summary.
  repeat match goal with
  | |- context [bind ?x _] => destruct x; cbn [bind]; [|done]
  end.
  intros [= <-].
  cbn [overview by_risk by_type by_repair_flag statistics table total_defects
       n_High n_Medium n_Low avg_depth_pct max_depth_pct avg_erf_b31g min_erf_b31g
       avg_wall_remaining_mm].
  by repeat split.
Qed.

Lemma filter_length_Forall2 {A B} (R : A -> B -> Prop) (P : A -> bool) (Q : B -> bool)
    (l : list A) (k : list B) :
  Forall2 R l k -> (forall x y, R x y -> P x = Q y) ->
  length (filter (fun x => P x = true) l) = length (filter (fun y => Q y = true) k).
Proof.
  intros Hlk HPQ. induction Hlk as [|x y l k Hxy _ IH]; [done|].
  rewrite !filter_cons. rewrite (HPQ x y Hxy).
  destruct (decide (Q y = true)); simpl; by rewrite IH.
Qed.

Lemma total_count_count_value v acc :
  total_count (count_value v acc) = total_count acc + 1.
Proof.
  induction acc as [|[k n] acc IH]; simpl; [lia|].
  destruct (py_eq k v); simpl; lia.
Qed.

Lemma total_count_value_counts col :
  total_count (value_counts col)
  = Z.of_nat (length (filter (fun v => pd_notna v = true) col)).
Proof.
  unfold value_counts.
  assert (forall acc,
            total_count
              (fold_left (fun acc v => if pd_isna v then acc else count_value v acc) col acc)
            = total_count acc
              + Z.of_nat (length (filter (fun v => pd_notna v = true) col))) as H.
  { induction col as [|v col IH]; intros acc; [simpl; lia|].
    cbn [fold_left]. rewrite IH, filter_cons.
    destruct (decide (pd_notna v = true)) as [E|E]; unfold pd_notna in E;
      destruct (pd_isna v) eqn:Ev; try done.
    - rewrite total_count_count_value. cbn [length]. lia. }
  rewrite H. cbn [total_count foldr]. lia.
Qed.

Section AggregatorContents.

Variable repr_float : float -> pystr.

(** What a successful run of the aggregator has done. *)
Lemma compute_inspection_summary_Ok (st : store) l meta d s st' :
  st !! l = Some d ->
  compute_inspection_summary repr_float l meta st = (Ok s, st') ->
  exists tiers priorities,
    mapM (risk_class_of repr_float) (rows d) = Ok tiers /\
    mapM assign_priority (zip_with (fun r v => <[risk_class := v]> r) (rows d) tiers)
      = Ok priorities /\
    length tiers = length (rows d) /\
    length priorities = length (rows d) /\
    build_summary meta (fresh (dom st)) (enriched tiers priorities d) = Ok s /\
    st' = <[fresh (dom st) := enriched tiers priorities d]> st.
Proof.
  intros Hl. rewrite (compute_inspection_summary_run repr_float st l meta d Hl). cbn zeta.
  unfold apply_rows. cbn [rows set_column].
  destruct (mapM (risk_class_of repr_float) (rows d)) as [tiers|e] eqn:Ht; [|done].
  destruct (mapM assign_priority _) as [priorities|e] eqn:Hp; [|done].
  intros [= Hs <-]. exists tiers, priorities.
  assert (length tiers = length (rows d)) as H1 by (by eapply mapM_length).
  assert (length priorities = length (rows d)) as H2.
  { apply mapM_length in Hp. rewrite length_zip_with in Hp. lia. }
  by repeat split.
Qed.

(** On a defect table the aggregator returns. *)
Lemma compute_inspection_summary_returns (st : store) l meta d :
  st !! l = Some d -> defect_table d ->
  exists s st', compute_inspection_summary repr_float l meta st = (Ok s, st').
Proof.
  intros Hl Hd.
  rewrite (compute_inspection_summary_run repr_float st l meta d Hl). cbn zeta.
  destruct (risk_class_of_defect_table repr_float d Hd) as [tiers Ht]. rewrite Ht.
  destruct (assign_priority_on_tiers (rows d) tiers) as [priorities Hp].
  unfold apply_rows at 1. cbn [rows set_column]. rewrite Hp.
  assert (length tiers = length (rows d)) as H1 by (by eapply mapM_length).
  assert (length priorities = length (rows d)) as H2.
  { apply mapM_length in Hp. rewrite length_zip_with in Hp. lia. }
  destruct (build_summary_ok meta (fresh (dom st)) tiers priorities d H1 H2 Hd) as [s Hs].
  rewrite Hs. by eexists _, _.
Qed.

(** X4. In the table of a summary every record is the source record with
    two cells set: [risk_class], the tier the classifier returns on the
    source record, and [repair_priority], 1 for High, 2 for Medium and 3 for
    Low. *)
Theorem summary_table_rows (st : store) l meta d s st' :
  st !! l = Some d ->
  compute_inspection_summary repr_float l meta st = (Ok s, st') ->
  exists d',
    st' !! table s = Some d' /\
    forall (i : nat) (r : row), rows d !! i = Some r ->
      exists c,
        assign_risk_class repr_float r = Ok c /\
        rows d' !! i
        = Some (<[repair_priority := PInt (priority_of c)]> (<[risk_class := PStr c]> r)).
Proof.
  intros Hl Hrun.
  destruct (compute_inspection_summary_Ok st l meta d s st' Hl Hrun)
    as (tiers & priorities & Ht & Hp & H1 & H2 & Hs & ->).
  destruct (build_summary_fields _ _ _ _ Hs) as (_&_&_&_&_&_&_&_&_&_&_& ->).
  exists (enriched tiers priorities d). rewrite lookup_insert_eq. split; [done|].
  intros i r Hr.
  destruct (enriched_row tiers priorities d i r H1 H2 Hr)
    as (t & p & Hti & Hpi & Hrow).
  apply mapM_Ok_Forall2 in Ht, Hp.
  pose proof (Forall2_lookup_lr _ _ _ _ _ _ Ht Hr Hti) as Htier.
  unfold risk_class_of, fmap_result in Htier.
  destruct (assign_risk_class repr_float r) as [c|] eqn:Hc; [|done].
  injection Htier as <-. exists c. split; [done|].
  assert (zip_with (fun (r : row) v => <[risk_class := v]> r) (rows d) tiers !! i
          = Some (<[risk_class := PStr c]> r)) as Hzi.
  { apply lookup_zip_with_Some. by exists r, (PStr c). }
  pose proof (Forall2_lookup_lr _ _ _ _ _ _ Hp Hzi Hpi) as Hprio.
  unfold assign_priority, row_item in Hprio. rewrite lookup_insert_eq in Hprio.
  cbn [bind py_eq] in Hprio. rewrite Hrow. do 2 f_equal.
  unfold priority_of.
  destruct (Text.eqb c High); [by injection Hprio|].
  destruct (Text.eqb c Medium); by injection Hprio.
Qed.

(** X5. Each entry of [by_risk] is the number of source records the
    classifier puts in that tier. *)
Theorem by_risk_counts_records (st : store) l meta d s st' :
  st !! l = Some d ->
  compute_inspection_summary repr_float l meta st = (Ok s, st') ->
  n_High (by_risk s)
    = Z.of_nat (length (filter (fun r => classified_as repr_float High r = true) (rows d))) /\
  n_Medium (by_risk s)
    = Z.of_nat (length (filter (fun r => classified_as repr_float Medium r = true) (rows d))) /\
  n_Low (by_risk s)
    = Z.of_nat (length (filter (fun r => classified_as repr_float Low r = true) (rows d))).
Proof.
  intros Hl Hrun.
  destruct (compute_inspection_summary_Ok st l meta d s st' Hl Hrun)
    as (tiers & priorities & Ht & _ & H1 & H2 & Hs & _).
  destruct (build_summary_fields _ _ _ _ Hs) as (Hh & Hm & Hlow & _).
  unfold count_tier in Hh, Hm, Hlow.
  rewrite column_risk_class_enriched in Hh, Hm, Hlow by done.
  cbn [bind] in Hh, Hm, Hlow.
  injection Hh as <-. injection Hm as <-. injection Hlow as <-.
  apply mapM_Ok_Forall2 in Ht.
  assert (forall tier,
    length (filter (fun v => py_eq v (PStr tier) = true) tiers)
    = length (filter (fun r => classified_as repr_float tier r = true) (rows d))) as Hcount.
  { intros tier. symmetry.
    apply (filter_length_Forall2
             (fun r v => risk_class_of repr_float r = Ok v)
             (classified_as repr_float tier) (fun v => py_eq v (PStr tier))); [done|].
    intros r v Hv. unfold risk_class_of, fmap_result in Hv. unfold classified_as.
    destruct (assign_risk_class repr_float r) as [c|]; [|done].
    by injection Hv as <-. }
  by rewrite !Hcount.
Qed.

Lemma stat_if_present_None agg k d o :
  stat_if_present agg k d = Ok o -> (o = None <-> has_column k d = false).
Proof.
  unfold stat_if_present. destruct (has_column k d).
  - destruct (column k d); cbn [bind]; [|done].
    destruct (agg a); cbn [bind]; [|done]. intros [= <-]. by split.
  - intros [= <-]. by split.
Qed.

(** X6. A statistic of a summary is [None] exactly when its source column
    is absent from the defect table. *)
Theorem statistic_None_iff_column_absent (st : store) l meta d s st' :
  st !! l = Some d ->
  compute_inspection_summary repr_float l meta st = (Ok s, st') ->
  (avg_depth_pct (statistics s) = None <-> has_column depth_pct d = false) /\
  (max_depth_pct (statistics s) = None <-> has_column depth_pct d = false) /\
  (avg_erf_b31g (statistics s) = None <-> has_column erf_b31g d = false) /\
  (min_erf_b31g (statistics s) = None <-> has_column erf_b31g d = false) /\
  (avg_wall_remaining_mm (statistics s) = None
   <-> has_column wall_thickness_remaining_mm d = false).
Proof.
  intros Hl Hrun.
  destruct (compute_inspection_summary_Ok st l meta d s st' Hl Hrun)
    as (tiers & priorities & _ & _ & _ & _ & Hs & _).
  destruct (build_summary_fields _ _ _ _ Hs) as (_&_&_&_&_& E1 & E2 & E3 & E4 & E5 & _).
  apply stat_if_present_None in E1, E2, E3, E4, E5.
  rewrite has_column_enriched in E1, E2, E3, E4, E5 by done.
  exact (conj E1 (conj E2 (conj E3 (conj E4 E5)))).
Qed.

Lemma counts_if_present_total k tiers priorities d cs :
  k <> risk_class -> k <> repair_priority ->
  length tiers = length (rows d) -> length priorities = length (rows d) ->
  counts_if_present k (enriched tiers priorities d) = Ok cs ->
  (has_column k d = false -> cs = []) /\
  (has_column k d = true ->
   total_count cs
   = Z.of_nat (length (filter (fun r => cell_present k r = true) (rows d)))).
Proof.
  intros Hk1 Hk2 H1 H2. unfold counts_if_present.
  rewrite has_column_enriched, column_enriched by done.
  destruct (has_column k d) eqn:E; [|by intros [= <-]].
  unfold column. rewrite E.
  destruct (mapM (fun r : row => row_item r k) (rows d)) as [col|] eqn:Hcol; [|done].
  cbn [bind]. intros [= <-]. split; [done|]. intros _.
  rewrite total_count_value_counts. f_equal. symmetry.
  apply mapM_Ok_Forall2 in Hcol.
  apply (filter_length_Forall2 (fun (r : row) v => row_item r k = Ok v)
           (cell_present k) pd_notna); [done|].
  intros r v Hv. unfold row_item in Hv. unfold cell_present.
  destruct (r !! k); [by injection Hv as <- | done].
Qed.

(** X7. The frequency tables [by_type] and [by_repair_flag] of a summary
    are empty when their column is absent from the defect table; otherwise
    their counts add up to the number of records whose cell in that column
    is not missing. *)
Theorem frequency_tables_count_present_cells (st : store) l meta d s st' :
  st !! l = Some d ->
  compute_inspection_summary repr_float l meta st = (Ok s, st') ->
  (has_column anomaly_type d = false -> by_type s = []) /\
  (has_column anomaly_type d = true ->
   total_count (by_type s)
   = Z.of_nat (length (filter (fun r => cell_present anomaly_type r = true) (rows d)))) /\
  (has_column repair_flag d = false -> by_repair_flag s = []) /\
  (has_column repair_flag d = true ->
   total_count (by_repair_flag s)
   = Z.of_nat (length (filter (fun r => cell_present repair_flag r = true) (rows d)))).
Proof.
  intros Hl Hrun.
  destruct (compute_inspection_summary_Ok st l meta d s st' Hl Hrun)
    as (tiers & priorities & _ & _ & H1 & H2 & Hs & _).
  destruct (build_summary_fields _ _ _ _ Hs) as (_&_&_& Et & Ef & _).
  apply counts_if_present_total in Et, Ef; try done.
  destruct Et as [Et1 Et2], Ef as [Ef1 Ef2].
  exact (conj Et1 (conj Et2 (conj Ef1 Ef2))).
Qed.

End AggregatorContents.

Lemma summary_table_rows_witness :
  exists s st' d',
    compute_inspection_summary repr_unused 1%positive ∅ (store_of frame_three)
    = (Ok s, st') /\
    st' !! table s = Some d' /\
    rows d' !! 1%nat
    = Some (<[repair_priority := PInt 2]> (<[risk_class := PStr Medium]> record_depth_30)).
Proof.
  destruct (compute_inspection_summary_returns repr_unused (store_of frame_three)
              1%positive ∅ frame_three eq_refl) as (s & st' & Hrun); [sample_table|].
  destruct (summary_table_rows repr_unused (store_of frame_three) 1%positive ∅
              frame_three s st' eq_refl Hrun) as (d' & Hd' & Hrows).
  exists s, st', d'. split; [exact Hrun|]. split; [exact Hd'|].
  destruct (Hrows 1%nat record_depth_30 eq_refl) as (c & Hc & Hrow).
  vm_compute in Hc. injection Hc as <-. exact Hrow.
Defined.

Lemma by_risk_counts_records_witness :
  exists s st',
    compute_inspection_summary repr_unused 1%positive ∅ (store_of frame_three)
    = (Ok s, st') /\
    n_High (by_risk s) = 2 /\ n_Medium (by_risk s) = 1 /\ n_Low (by_risk s) = 0.
Proof.
  destruct (compute_inspection_summary_returns repr_unused (store_of frame_three)
              1%positive ∅ frame_three eq_refl) as (s & st' & Hrun); [sample_table|].
  destruct (by_risk_counts_records repr_unused (store_of frame_three) 1%positive ∅
              frame_three s st' eq_refl Hrun) as (Hh & Hm & Hlow).
  exists s, st'. split; [exact Hrun|]. clear Hrun.
  rewrite Hh, Hm, Hlow. vm_compute. by repeat split.
Defined.

Lemma statistic_None_iff_column_absent_witness :
  exists s st',
    compute_inspection_summary repr_unused 1%positive ∅ (store_of frame_headers_only)
    = (Ok s, st') /\
    (avg_depth_pct (statistics s) = None
     <-> has_column depth_pct frame_headers_only = false) /\
    (avg_wall_remaining_mm (statistics s) = None
     <-> has_column wall_thickness_remaining_mm frame_headers_only = false).
Proof.
  destruct (compute_inspection_summary_returns repr_unused (store_of frame_headers_only)
              1%positive ∅ frame_headers_only eq_refl) as (s & st' & Hrun);
    [sample_table|].
  destruct (statistic_None_iff_column_absent repr_unused (store_of frame_headers_only)
              1%positive ∅ frame_headers_only s st' eq_refl Hrun)
    as (E1 & _ & _ & _ & E5).
  exists s, st'. split; [exact Hrun|]. exact (conj E1 E5).
Defined.

Lemma frequency_tables_count_present_cells_witness :
  exists s st',
    compute_inspection_summary repr_unused 1%positive ∅ (store_of frame_three)
    = (Ok s, st') /\
    by_type s = [] /\ total_count (by_repair_flag s) = 3.
Proof.
  destruct (compute_inspection_summary_returns repr_unused (store_of frame_three)
              1%positive ∅ frame_three eq_refl) as (s & st' & Hrun); [sample_table|].
  destruct (frequency_tables_count_present_cells repr_unused (store_of frame_three)
              1%positive ∅ frame_three s st' eq_refl Hrun) as (Ht & _ & _ & Hf).
  exists s, st'. split; [exact Hrun|]. clear Hrun.
  split; [by apply Ht|]. rewrite Hf; [|reflexivity]. vm_compute. reflexivity.
Defined.

(** ** Further properties of the renaming *)





Lemma normalized_columns_map (cols : list pystr) :
  normalized_columns cols
  = map (fun h => match scan_mapping COLUMN_MAPPING h with Some val => val | None => h end)
      cols.
Proof.
  apply list_eq. intros i. rewrite list_lookup_fmap.
  destruct (cols !! i) as [h|] eqn:Hi.
  - by rewrite (normalized_columns_lookup cols i h Hi).
  - unfold normalized_columns, rename. by rewrite list_lookup_fmap, Hi.
Qed.

Lemma scan_mapping_target items h val :
  scan_mapping items h = Some val -> exists key, (key, val) ∈ items.
Proof.
  induction items as [|[k v] items IH]; simpl; [done|].
  destruct (key_matches k h).
  - intros [= ->]. exists k. apply list_elem_of_here.
  - intros H. destruct (IH H) as [key Hkey]. exists key. by apply list_elem_of_further.
Qed.

Lemma targets_match_no_key :
  Forall (fun kv : pystr * pystr => scan_mapping COLUMN_MAPPING kv.2 = None) COLUMN_MAPPING.
Proof.
  unfold COLUMN_MAPPING at 2.
  repeat (apply Forall_cons_2; [by vm_compute|]). apply Forall_nil_2.
Qed.

(** X9. The renaming is idempotent: no target name of the mapping table
    mentions a key of the table, so the labels of a normalized sheet are
    left as they are when they are renamed again. *)
Theorem normalized_columns_idempotent (cols : list pystr) :
  normalized_columns (normalized_columns cols) = normalized_columns cols.
Proof.
  rewrite !normalized_columns_map, <- list_fmap_compose.
  apply list_fmap_ext. intros _ h _. cbn [compose].
  destruct (scan_mapping COLUMN_MAPPING h) as [val|] eqn:Hh; [|by rewrite Hh].
  destruct (scan_mapping_target _ _ _ Hh) as [key Hkey].
  pose proof targets_match_no_key as Hall. rewrite Forall_forall in Hall.
  pose proof (Hall _ Hkey) as Hval. cbn [snd] in Hval. by rewrite Hval.
Qed.


(** ** Properties of the cleaning of the numeric columns *)


Lemma mapM_Raise {A B} (f : A -> result B) (l : list A) e :
  mapM f l = Raise e -> exists a, a ∈ l /\ f a = Raise e.
Proof.
  induction l as [|a l IH]; simpl; [done|].
  destruct (f a) as [b|e'] eqn:Ha; simpl.
  - destruct (mapM f l) as [bs|e'] eqn:Hl; simpl; [done|].
    intros [= ->]. destruct (IH eq_refl) as (a' & Ha' & Hf).
    exists a'. split; [by apply list_elem_of_further | done].
  - intros [= ->]. exists a. split; [apply list_elem_of_here | done].
Qed.

Lemma Forall2_compose {A B C} (P : A -> B -> Prop) (Q : B -> C -> Prop)
    (R : A -> C -> Prop) (l : list A) (k : list B) (m : list C) :
  (forall a b c, P a b -> Q b c -> R a c) ->
  Forall2 P l k -> Forall2 Q k m -> Forall2 R l m.
Proof.
  intros HR Hlk. revert m. induction Hlk as [|a b l k Hab _ IH]; intros m Hkm.
  - inversion Hkm. constructor.
  - inversion Hkm as [|b' c k' m' Hbc Hkm']; subst. constructor; [by eapply HR | by apply IH].
Qed.

Lemma Forall2_zip_with_r {A B} (R : A -> B -> Prop) (f : A -> B -> A)
    (l : list A) (k : list B) :
  Forall2 R l k -> Forall2 (fun a a' => exists b, R a b /\ a' = f a b) l (zip_with f l k).
Proof.
  induction 1 as [|a b l k Hab _ IH]; simpl; constructor; [by exists b | done].
Qed.

Lemma Forall2_diag {A} (R : A -> A -> Prop) (l : list A) :
  (forall a, R a a) -> Forall2 R l l.
Proof. intros HR. induction l; constructor; auto. Qed.

Lemma Forall2_Forall_transfer {A B} (R : A -> B -> Prop) (P : A -> Prop) (Q : B -> Prop)
    (l : list A) (k : list B) :
  (forall a b, R a b -> P a -> Q b) -> Forall2 R l k -> Forall P l -> Forall Q k.
Proof.
  intros HR Hlk. induction Hlk as [|a b l k Hab _ IH]; intros Hl; [constructor|].
  inversion Hl; subst. constructor; [by eapply HR | by apply IH].
Qed.

Lemma NoDup_numeric_cols : NoDup numeric_cols.
Proof. apply (bool_decide_unpack _). by vm_compute. Qed.


Lemma has_column_columns k d d' :
  columns d' = columns d -> has_column k d' = has_column k d.
Proof. unfold has_column. by intros ->. Qed.

Section CleaningProperties.

Variable repr_float : float -> pystr.

Lemma clean_numeric_cases v :
  (exists x, clean_numeric repr_float v = Ok x) \/
  (clean_numeric repr_float v = Raise OverflowError /\
   exists z, v = PInt z /\ Num.overflow_bound <= Z.abs z).
Proof.
  unfold clean_numeric.
  destruct (pd_isna v || py_eq v (PStr [])); [by left; eexists|].
  destruct v as [|b|z|f|s]; cbn [is_int_or_float py_float py_str].
  - destruct (Num.float_of_str _); left; by eexists.
  - left; by eexists.
  - unfold Num.float_of_int.
    destruct (Z.leb_spec Num.overflow_bound (Z.abs z)) as [Hbig|_].
    + right. split; [done|]. by exists z.
    + left; by eexists.
  - left; by eexists.
  - destruct (Num.float_of_str _); left; by eexists.
Qed.

Lemma clean_numeric_huge_int z :
  Num.overflow_bound <= Z.abs z ->
  clean_numeric repr_float (PInt z) = Raise OverflowError.
Proof.
  intros Hz. unfold clean_numeric. cbn [pd_isna orb].
  replace (py_eq (PInt z) (PStr [])) with false by done.
  cbn [is_int_or_float py_float]. unfold Num.float_of_int.
  destruct (Z.leb_spec Num.overflow_bound (Z.abs z)) as [_|Hsmall]; [done | lia].
Qed.

(** What one pass of the loop has done when it returns. *)
Lemma clean_column_spec c d d1 :
  clean_column repr_float c d = Ok d1 ->
  has_column c d = true /\ columns d1 = columns d /\
  Forall2 (fun r r1 : row =>
             exists v x, r !! c = Some v /\ clean_numeric repr_float v = Ok x /\
                         r1 = <[c := PFloat x]> r) (rows d) (rows d1).
Proof.
  unfold clean_column, column. destruct (has_column c d) eqn:Hc; [|done].
  destruct (mapM (fun r : row => row_item r c) (rows d)) as [cells|] eqn:Hcells; [|done].
  cbn [bind].
  destruct (mapM (clean_numeric repr_float) cells) as [cleaned|] eqn:Hcleaned; [|done].
  cbn [bind]. intros [= <-]. split; [done|]. unfold set_column. rewrite Hc.
  cbn [columns rows]. split; [done|].
  apply mapM_Ok_Forall2 in Hcells, Hcleaned.
  assert (Forall2 (fun (r : row) (y : pyval) =>
                     exists v x, r !! c = Some v /\ clean_numeric repr_float v = Ok x /\
                                 y = PFloat x) (rows d) (map PFloat cleaned)) as H.
  { apply Forall2_fmap_r.
    eapply (Forall2_compose _ _ _ _ _ _ _ Hcells Hcleaned). }
  apply (Forall2_zip_with_r _ (fun (r : row) v => <[c := v]> r)) in H.
  eapply Forall2_impl; [exact H|].
  intros r r1 (y & (v & x & Hv & Hx & ->) & ->). by exists v, x.
  Unshelve.
  intros r v x Hv Hx. cbn [compose]. exists v, x. unfold row_item in Hv.
  destruct (r !! c); [by injection Hv as -> | done].
Qed.

Lemma clean_numeric_columns_spec cols d d' :
  NoDup cols ->
  clean_numeric_columns repr_float cols d = Ok d' ->
  columns d' = columns d /\
  Forall2 (cleaned_cells repr_float cols d) (rows d) (rows d').
Proof.
  intros Hnd. revert d. induction Hnd as [|c cs Hc _ IH]; intros d; cbn [clean_numeric_columns].
  - intros [= <-]. split; [done|]. apply Forall2_diag. intros r k. split; [|done].
    intros Hk. by apply elem_of_nil in Hk.
  - destruct (has_column c d) eqn:Hcd.
    + destruct (clean_column repr_float c d) as [d1|] eqn:Hd1; [|done]. cbn [bind].
      intros Hd'. destruct (IH d1 Hd') as [Hcols Hrows].
      destruct (clean_column_spec c d d1 Hd1) as (_ & Hcols1 & Hrows1).
      split; [congruence|].
      eapply Forall2_compose; [|exact Hrows1|exact Hrows].
      intros r r1 r' (v & x & Hv & Hx & ->) Hr' k.
      destruct (Hr' k) as [Hin Hout]. rewrite (has_column_columns k d d1 Hcols1) in Hin, Hout.
      destruct (decide (k = c)) as [->|Hkc].
      * split; [|intros Hn; destruct Hn; split; [apply list_elem_of_here | done]].
        intros _ _. exists v, x. split; [done|]. split; [done|].
        rewrite Hout by (by intros [Hcs _]). by rewrite lookup_insert_eq.
      * split.
        -- intros Hk Hkd. apply elem_of_cons in Hk as [Hk|Hk]; [done|].
           destruct (Hin Hk Hkd) as (v' & x' & Hv' & Hx' & Hr'k).
           rewrite lookup_insert_ne in Hv' by done. by exists v', x'.
        -- intros Hn. rewrite Hout, lookup_insert_ne; [done | done |].
           intros [Hk Hkd]. apply Hn. split; [by apply list_elem_of_further | done].
    + intros Hd'. destruct (IH d Hd') as [Hcols Hrows]. split; [done|].
      eapply Forall2_impl; [exact Hrows|]. intros r r' Hr' k.
      destruct (Hr' k) as [Hin Hout]. split.
      * intros Hk Hkd. apply elem_of_cons in Hk as [->|Hk]; [congruence | by apply Hin].
      * intros Hn. apply Hout. intros [Hk Hkd]. apply Hn.
        split; [by apply list_elem_of_further | done].
Qed.

(** X10. When the cleaning loop returns, the frame has its labels and its
    rows, in their order; the cell under a numeric column the frame has is
    the float [clean_numeric] returns on the old cell, and every other cell
    is as it was. *)
Theorem cleaning_replaces_numeric_cells (d d' : DataFrame) :
  clean_numeric_columns repr_float numeric_cols d = Ok d' ->
  columns d' = columns d /\
  Forall2 (cleaned_cells repr_float numeric_cols d) (rows d) (rows d').
Proof. apply clean_numeric_columns_spec, NoDup_numeric_cols. Qed.

Lemma labelled_cleaned cols d d' :
  columns d' = columns d ->
  Forall2 (cleaned_cells repr_float cols d) (rows d) (rows d') ->
  labelled d -> labelled d'.
Proof.
  intros Hcols Hrows. unfold labelled. rewrite Hcols.
  apply Forall2_Forall_transfer with (R := cleaned_cells repr_float cols d); [|done].
  intros r r' Hr' Hr k. destruct (Hr' k) as [Hin Hout].
  destruct (decide (k ∈ cols)) as [Hk|Hk]; [destruct (has_column k d) eqn:Hkd|].
  - destruct (Hin Hk eq_refl) as (v & x & _ & _ & ->).
    split; [intros _ | done]. unfold has_column in Hkd. by apply bool_decide_eq_true in Hkd.
  - rewrite Hout; [apply Hr | by intros [_ ?]].
  - rewrite Hout; [apply Hr | by intros [? _]].
Qed.






Lemma clean_column_labelled c d d1 :
  labelled d -> clean_column repr_float c d = Ok d1 -> labelled d1.
Proof.
  intros Hl Hd1. destruct (clean_column_spec c d d1 Hd1) as (Hcd & _ & _).
  assert (clean_numeric_columns repr_float [c] d = Ok d1) as Hone.
  { cbn [clean_numeric_columns]. by rewrite Hcd, Hd1. }
  apply clean_numeric_columns_spec in Hone as [Hcols Hrows]; [|apply NoDup_singleton].
  by eapply labelled_cleaned.
Qed.

Lemma clean_column_error c d e :
  labelled d -> has_column c d = true ->
  clean_column repr_float c d = Raise e -> e = OverflowError.
Proof.
  intros Hl Hcd. unfold clean_column, column. rewrite Hcd.
  destruct (mapM (fun r : row => row_item r c) (rows d)) as [cells|e'] eqn:Hcells.
  - cbn [bind].
    destruct (mapM (clean_numeric repr_float) cells) as [cleaned|e'] eqn:Hcleaned; [done|].
    cbn [bind]. intros [= ->].
    apply mapM_Raise in Hcleaned as (v & _ & Hv).
    destruct (clean_numeric_cases v) as [[x Hx] | [Hraise _]]; congruence.
  - apply mapM_Raise in Hcells as (r & Hr & Hrc). unfold labelled in Hl.
    rewrite Forall_forall in Hl. unfold row_item in Hrc.
    destruct (proj2 (Hl r Hr c)) as [v Hv]; [|by rewrite Hv in Hrc].
    unfold has_column in Hcd. by apply bool_decide_eq_true in Hcd.
Qed.

Lemma clean_numeric_columns_huge (cols : list pystr) (d : DataFrame) (i : nat) (r : row)
    (k : pystr) (z : Z) :
  labelled d -> rows d !! i = Some r -> k ∈ cols ->
  r !! k = Some (PInt z) -> Num.overflow_bound <= Z.abs z ->
  clean_numeric_columns repr_float cols d = Raise OverflowError.
Proof.
  revert d r. induction cols as [|c cs IH]; intros d r Hl Hi Hk Hr Hz.
  { by apply elem_of_nil in Hk. }
  assert (has_column k d = true) as Hkd.
  { unfold labelled in Hl. rewrite Forall_forall in Hl.
    unfold has_column. apply bool_decide_eq_true.
    apply (Hl r); [by eapply list_elem_of_lookup_2 | by eexists]. }
  cbn [clean_numeric_columns]. destruct (has_column c d) eqn:Hcd.
  - destruct (clean_column repr_float c d) as [d1|e] eqn:Hd1; cbn [bind].
    + destruct (clean_column_spec c d d1 Hd1) as (_ & Hcols & Hrows).
      destruct (Forall2_lookup_l _ _ _ _ _ Hrows Hi)
        as (r1 & Hi1 & v & x & Hv & Hx & ->).
      destruct (decide (k = c)) as [->|Hkc].
      { rewrite Hr in Hv. injection Hv as <-.
        rewrite (clean_numeric_huge_int z Hz) in Hx. discriminate Hx. }
      apply (IH d1 (<[c := PFloat x]> r)); try done.
      * by eapply clean_column_labelled.
      * apply elem_of_cons in Hk as [Hk|Hk]; done.
      * by rewrite lookup_insert_ne.
    + by rewrite (clean_column_error c d e Hl Hcd Hd1).
  - apply (IH d r); try done.
    apply elem_of_cons in Hk as [->|Hk]; [congruence | done].
Qed.

(** X11. An integer outside the float range in a numeric column stops the
    normalizer: it raises [OverflowError] and returns no frame. *)
Theorem huge_integer_stops_normalizer (d : DataFrame) (i : nat) (r : row)
    (k : pystr) (z : Z) :
  labelled d -> rows d !! i = Some r -> k ∈ numeric_cols ->
  r !! k = Some (PInt z) -> Num.overflow_bound <= Z.abs z ->
  clean_and_drop repr_float d = Raise OverflowError.
Proof.
  intros Hl Hi Hk Hr Hz. unfold clean_and_drop.
  by rewrite (clean_numeric_columns_huge numeric_cols d i r k z).
Qed.


(** X13. The frame the normalizer returns has the labels it was given, no
    more rows than it was given, no row whose cells are all missing, and a
    float in every cell of a numeric column. *)
Theorem normalized_table_invariants (d d' : DataFrame) :
  clean_and_drop repr_float d = Ok d' ->
  columns d' = columns d /\
  (length (rows d') <= length (rows d))%nat /\
  Forall (some_cell_present (columns d')) (rows d') /\
  Forall (fun r' : row =>
            forall k, k ∈ numeric_cols -> has_column k d = true ->
                      exists x, r' !! k = Some (PFloat x)) (rows d').
Proof.
  unfold clean_and_drop.
  destruct (clean_numeric_columns repr_float numeric_cols d) as [d1|] eqn:Hd1; [|done].
  cbn [bind]. intros [= <-].
  destruct (clean_numeric_columns_spec _ _ _ NoDup_numeric_cols Hd1) as [Hcols Hrows].
  unfold dropna_all. cbn [columns rows]. split; [done|]. split; [|split].
  - rewrite (Forall2_length _ _ _ Hrows). apply length_filter.
  - apply Forall_forall. intros r Hr. apply list_elem_of_filter in Hr as [Hr _].
    apply existsb_exists in Hr as (k & Hk & Hkr).
    apply Exists_exists. exists k. split; [by apply list_elem_of_In | done].
  - apply Forall_forall. intros r Hr. apply list_elem_of_filter in Hr as [_ Hr].
    assert (Forall (fun r' : row =>
              forall k, k ∈ numeric_cols -> has_column k d = true ->
                        exists x, r' !! k = Some (PFloat x)) (rows d1)) as Hall.
    { eapply Forall2_Forall_transfer; [|exact Hrows|apply Forall_true; exact (fun _ => I)].
      intros r0 r1 Hr1 _ k Hk Hkd. cbv beta in Hr1.
      destruct (proj1 (Hr1 k) Hk Hkd) as (v & x & _ & _ & Hx). by exists x. }
    rewrite Forall_forall in Hall. by apply Hall.
Qed.

End CleaningProperties.

Ltac sample_keys :=
  let k := fresh "k" in
  let H := fresh "H" in
  let E := fresh "E" in
  intros k; rewrite ?lookup_insert_is_Some, lookup_empty, ?elem_of_cons, elem_of_nil;
  split; intros H;
  [ repeat (destruct H as [<-|[_ H]]; [repeat first [left; reflexivity | right]|]);
    by destruct H
  | repeat (destruct H as [->|H];
            [repeat first [left; reflexivity
                          | right; split; [intros E; vm_compute in E; discriminate E|]]|]);
    by destruct H ].

Ltac sample_labelled :=
  unfold labelled; cbn [rows columns frame_renamed frame_huge];
  repeat (apply Forall_cons_2; [sample_keys|]); apply Forall_nil_2.



Lemma cleaning_replaces_numeric_cells_witness :
  columns frame_cleaned = columns frame_renamed /\
  Forall2 (cleaned_cells repr_unused numeric_cols frame_renamed)
    (rows frame_renamed) (rows frame_cleaned).
Proof.
  apply (cleaning_replaces_numeric_cells repr_unused frame_renamed frame_cleaned).
  by vm_compute.
Defined.

Lemma huge_integer_stops_normalizer_witness :
  clean_and_drop repr_unused frame_huge = Raise OverflowError.
Proof.
  apply (huge_integer_stops_normalizer repr_unused frame_huge 0%nat
           (<[comment := PStr (u8 "weld")]> (<[depth_pct := PInt (2 ^ 1024)]> ∅))
           depth_pct (2 ^ 1024)).
  - sample_labelled.
  - reflexivity.
  - apply (bool_decide_unpack _). by vm_compute.
  - reflexivity.
  - by vm_compute.
Defined.


Lemma normalized_table_invariants_witness :
  columns frame_normalized = columns frame_renamed /\
  (length (rows frame_normalized) <= length (rows frame_renamed))%nat /\
  Forall (some_cell_present (columns frame_normalized)) (rows frame_normalized) /\
  Forall (fun r' : row =>
            forall k, k ∈ numeric_cols -> has_column k frame_renamed = true ->
                      exists x, r' !! k = Some (PFloat x)) (rows frame_normalized).
Proof.
  apply (normalized_table_invariants repr_unused frame_renamed frame_normalized).
  by vm_compute.
Defined.

(** ** Further properties of the comparator *)

Lemma round_ratio_zero (den : positive) : Num.round_ratio false 0 den = S754_zero false.
Proof. reflexivity. Qed.

Lemma change_pct_unchanged (p : Z) :
  change_pct p p = Ok (if p >? 0 then PFloat 0 else PInt 0).
Proof.
  unfold change_pct. destruct (Z.gtb_spec p 0) as [Hpos|Hneg]; [|done].
  unfold Num.int_truediv. rewrite Z.sub_diag.
  destruct (Z.eqb_spec p 0) as [E|_]; [lia|].
  assert (0 < Num.overflow_bound) as Hb by (by vm_compute).
  destruct (Z.leb_spec (Num.overflow_bound * Z.abs p) (Z.abs 0)) as [Hle|_].
  { remember Num.overflow_bound as B. nia. }
  destruct (Z.ltb_spec p 0) as [Hlt|_]; [lia|].
  cbn [Z.abs Z.ltb Z.compare xorb]. rewrite round_ratio_zero. by vm_compute.
Qed.

(** X14. Between two inspections with the same total and the same High
    count the comparator reports no change: both differences are 0, and
    both percentages are zero, the float 0.0 where the count is positive and
    the integer 0 where it is 0. *)
Theorem unchanged_counts_compare_to_zero (cur prev : Summary) :
  total_defects (overview cur) = total_defects (overview prev) ->
  n_High (by_risk cur) = n_High (by_risk prev) ->
  compare_with_previous cur (Some prev)
  = Ok {| defects_change := 0;
          high_risk_change := 0;
          defects_change_pct :=
            Some (if total_defects (overview prev) >? 0 then PFloat 0 else PInt 0);
          high_risk_change_pct :=
            Some (if n_High (by_risk prev) >? 0 then PFloat 0 else PInt 0);
          has_previous := true |}.
Proof.
  intros Ht Hh. unfold compare_with_previous. cbn zeta. rewrite Ht, Hh.
  rewrite !change_pct_unchanged. cbn [bind]. by rewrite !Z.sub_diag.
Qed.

Lemma unchanged_counts_compare_to_zero_witness :
  compare_with_previous (summary_with 5 0) (Some (summary_with 5 0))
  = Ok {| defects_change := 0;
          high_risk_change := 0;
          defects_change_pct := Some (PFloat 0);
          high_risk_change_pct := Some (PInt 0);
          has_previous := true |}.
Proof.
  apply (unchanged_counts_compare_to_zero (summary_with 5 0) (summary_with 5 0));
    reflexivity.
Defined.

(** ** The order of the floats, and the extremes of a column *)

Ltac fold_pos_compare :=
  repeat match goal with
  | |- context [PosDef.Pos.compare_cont Eq ?a ?b] =>
      change (PosDef.Pos.compare_cont Eq a b) with (Pos.compare a b)
  | H : context [PosDef.Pos.compare_cont Eq ?a ?b] |- _ =>
      change (PosDef.Pos.compare_cont Eq a b) with (Pos.compare a b) in H
  end.

Ltac order_cases :=
  repeat match goal with
  | H : context [Z.compare ?a ?b] |- _ =>
      destruct (Z.compare_spec a b); cbn [CompOpp] in *; try discriminate H
  | H : context [Pos.compare ?a ?b] |- _ =>
      destruct (Pos.compare_spec a b); cbn [CompOpp] in *; try discriminate H
  | |- context [Z.compare ?a ?b] =>
      destruct (Z.compare_spec a b); cbn [CompOpp] in *; try lia
  | |- context [Pos.compare ?a ?b] =>
      destruct (Pos.compare_spec a b); cbn [CompOpp] in *; try lia
  end.

Lemma SFleb_trans x y z :
  SFleb x y = true -> SFleb y z = true -> SFleb x z = true.
Proof.
  unfold SFleb, SFcompare.
  destruct x as [sx|sx| |sx mx ex], y as [sy|sy| |sy my ey], z as [sz|sz| |sz mz ez];
    try done;
    repeat match goal with s : bool |- _ => destruct s end; try done;
    intros H1 H2; fold_pos_compare; order_cases; try done; try lia.
Qed.

Lemma SFltb_false_leb x y :
  x <> S754_nan -> y <> S754_nan -> SFltb x y = false -> SFleb y x = true.
Proof.
  unfold SFleb, SFltb, SFcompare.
  destruct x as [sx|sx| |sx mx ex], y as [sy|sy| |sy my ey]; try done;
    repeat match goal with s : bool |- _ => destruct s end; try done;
    intros _ _ H; fold_pos_compare; order_cases; try done; try lia.
Qed.

Lemma SFltb_leb x y : SFltb x y = true -> SFleb x y = true.
Proof. unfold SFleb, SFltb. by destruct (SFcompare x y) as [[]|]. Qed.

Lemma is_nan_false_eqb (x : float) : is_nan x = false <-> (x =? x)%float = true.
Proof. unfold is_nan. by destruct (x =? x)%float. Qed.

Lemma is_nan_false_spec (x : float) : is_nan x = false -> Prim2SF x <> S754_nan.
Proof.
  intros H E. apply is_nan_false_eqb in H. rewrite FloatAxioms.eqb_spec, E in H. discriminate H.
Qed.

Lemma float_leb_trans (x y z : float) :
  (x <=? y)%float = true -> (y <=? z)%float = true -> (x <=? z)%float = true.
Proof. rewrite !FloatAxioms.leb_spec. apply SFleb_trans. Qed.

Lemma float_leb_refl (x : float) : is_nan x = false -> (x <=? x)%float = true.
Proof.
  intros H. apply is_nan_false_eqb in H. rewrite FloatAxioms.eqb_spec in H. rewrite FloatAxioms.leb_spec.
  unfold SFeqb in H. unfold SFleb.
  by destruct (SFcompare (Prim2SF x) (Prim2SF x)) as [[]|].
Qed.

Lemma float_ltb_false_leb (x y : float) :
  is_nan x = false -> is_nan y = false ->
  (x <? y)%float = false -> (y <=? x)%float = true.
Proof.
  intros Hx Hy. rewrite FloatAxioms.ltb_spec, FloatAxioms.leb_spec.
  apply SFltb_false_leb; by apply is_nan_false_spec.
Qed.

Lemma float_ltb_leb (x y : float) : (x <? y)%float = true -> (x <=? y)%float = true.
Proof. rewrite FloatAxioms.ltb_spec, FloatAxioms.leb_spec. apply SFltb_leb. Qed.

(** The fold of [Series.max]: an upper bound of the values, and one of them. *)
Lemma fold_max_bound (xs : list float) (x : float) :
  Forall (fun y => is_nan y = false) (x :: xs) ->
  let m := fold_left (fun a b => if (a <? b)%float then b else a) xs x in
  m ∈ x :: xs /\ Forall (fun y => (y <=? m)%float = true) (x :: xs).
Proof.
  revert x. induction xs as [|y ys IH]; intros x Hall; cbn [fold_left].
  - apply Forall_cons in Hall as [Hx _]. split; [apply list_elem_of_here|].
    constructor; [by apply float_leb_refl | constructor].
  - apply Forall_cons in Hall as [Hx Hall]. apply Forall_cons in Hall as [Hy Hys].
    destruct (x <? y)%float eqn:Hlt.
    + destruct (IH y) as [Hm Hb]; [by constructor|]. cbv zeta in Hm, Hb.
      apply Forall_cons in Hb as [Hym Hb]. split; [by apply list_elem_of_further|].
      constructor; [|by constructor].
      apply (float_leb_trans x y); [by apply float_ltb_leb | done].
    + destruct (IH x) as [Hm Hb]; [by constructor|]. cbv zeta in Hm, Hb.
      apply Forall_cons in Hb as [Hxm Hb]. split.
      * apply elem_of_cons in Hm as [Hm|Hm];
          [rewrite Hm; apply list_elem_of_here | by do 2 apply list_elem_of_further].
      * constructor; [done|]. constructor; [|done].
        apply (float_leb_trans y x); [by apply float_ltb_false_leb | done].
Qed.

(** The fold of [Series.min]: a lower bound of the values, and one of them. *)
Lemma fold_min_bound (xs : list float) (x : float) :
  Forall (fun y => is_nan y = false) (x :: xs) ->
  let m := fold_left (fun a b => if (b <? a)%float then b else a) xs x in
  m ∈ x :: xs /\ Forall (fun y => (m <=? y)%float = true) (x :: xs).
Proof.
  revert x. induction xs as [|y ys IH]; intros x Hall; cbn [fold_left].
  - apply Forall_cons in Hall as [Hx _]. split; [apply list_elem_of_here|].
    constructor; [by apply float_leb_refl | constructor].
  - apply Forall_cons in Hall as [Hx Hall]. apply Forall_cons in Hall as [Hy Hys].
    destruct (y <? x)%float eqn:Hlt.
    + destruct (IH y) as [Hm Hb]; [by constructor|]. cbv zeta in Hm, Hb.
      apply Forall_cons in Hb as [Hym Hb]. split; [by apply list_elem_of_further|].
      constructor; [|by constructor].
      apply (float_leb_trans _ y x); [done | by apply float_ltb_leb].
    + destruct (IH x) as [Hm Hb]; [by constructor|]. cbv zeta in Hm, Hb.
      apply Forall_cons in Hb as [Hxm Hb]. split.
      * apply elem_of_cons in Hm as [Hm|Hm];
          [rewrite Hm; apply list_elem_of_here | by do 2 apply list_elem_of_further].
      * constructor; [done|]. constructor; [|done].
        apply (float_leb_trans _ x y); [done | by apply float_ltb_false_leb].
Qed.

Lemma present_values_floats (col : list pyval) :
  Forall (fun v => exists f, v = PFloat f) col ->
  exists xs,
    present_values col = Ok xs /\
    Forall (fun x => is_nan x = false) xs /\
    forall f, f ∈ xs <-> PFloat f ∈ col /\ is_nan f = false.
Proof.
  induction 1 as [|v col [f ->] _ (xs & Hxs & Hnan & Hmem)]; cbn [present_values].
  - exists []. split; [done|]. split; [constructor|].
    intros f. rewrite !elem_of_nil. by split; [|intros [? _]].
  - cbn [pd_isna py_float]. destruct (is_nan f) eqn:Hf.
    + exists xs. split; [done|]. split; [done|].
      intros g. rewrite Hmem, elem_of_cons. split; [intros [? ?]; auto|].
      intros [[[= ->]|Hg] Hgn]; [congruence | done].
    + rewrite Hxs. cbn [bind]. exists (f :: xs). split; [done|].
      split; [by constructor|].
      intros g. rewrite !elem_of_cons, Hmem. split.
      * intros [->|[Hg Hgn]]; auto.
      * intros [[[= ->]|Hg] Hgn]; auto.
Qed.

Lemma series_max_float_column (col : list pyval) (m : float) :
  Forall (fun v => exists f, v = PFloat f) col ->
  series_max col = Ok m ->
  (forall f, PFloat f ∈ col -> is_nan f = false -> (f <=? m)%float = true) /\
  ((exists f, PFloat f ∈ col /\ is_nan f = false) ->
   PFloat m ∈ col /\ is_nan m = false).
Proof.
  intros Hcol. unfold series_max.
  destruct (present_values_floats col Hcol) as (xs & -> & Hnan & Hmem). cbn [bind].
  destruct xs as [|x xs].
  - intros _. split.
    + intros f Hf Hfn. assert (f ∈ @nil float) as H by (by apply Hmem).
      by apply elem_of_nil in H.
    + intros (f & Hf & Hfn). assert (f ∈ @nil float) as H by (by apply Hmem).
      by apply elem_of_nil in H.
  - intros [= <-]. destruct (fold_max_bound xs x Hnan) as [Hm Hb]. cbv zeta in Hm, Hb.
    rewrite Forall_forall in Hb. split.
    + intros f Hf Hfn. apply Hb. by apply Hmem.
    + intros _. by apply Hmem.
Qed.

Lemma series_min_float_column (col : list pyval) (m : float) :
  Forall (fun v => exists f, v = PFloat f) col ->
  series_min col = Ok m ->
  (forall f, PFloat f ∈ col -> is_nan f = false -> (m <=? f)%float = true) /\
  ((exists f, PFloat f ∈ col /\ is_nan f = false) ->
   PFloat m ∈ col /\ is_nan m = false).
Proof.
  intros Hcol. unfold series_min.
  destruct (present_values_floats col Hcol) as (xs & -> & Hnan & Hmem). cbn [bind].
  destruct xs as [|x xs].
  - intros _. split.
    + intros f Hf Hfn. assert (f ∈ @nil float) as H by (by apply Hmem).
      by apply elem_of_nil in H.
    + intros (f & Hf & Hfn). assert (f ∈ @nil float) as H by (by apply Hmem).
      by apply elem_of_nil in H.
  - intros [= <-]. destruct (fold_min_bound xs x Hnan) as [Hm Hb]. cbv zeta in Hm, Hb.
    rewrite Forall_forall in Hb. split.
    + intros f Hf Hfn. apply Hb. by apply Hmem.
    + intros _. by apply Hmem.
Qed.

(** The cells of a column and the rows they come from. *)
Lemma column_cells (k : pystr) (d : DataFrame) (col : list pyval) :
  column k d = Ok col ->
  forall v, v ∈ col <-> Exists (fun r : row => r !! k = Some v) (rows d).
Proof.
  unfold column. destruct (has_column k d); [|done].
  rewrite mapM_Ok_Forall2. induction 1 as [|r v' rs col Hv _ IH]; intros v.
  - rewrite elem_of_nil, Exists_nil. done.
  - rewrite elem_of_cons, Exists_cons, IH. unfold row_item in Hv.
    destruct (r !! k) as [w|]; [injection Hv as ->|done].
    split; (intros [H|H]; [left|by right]); congruence.
Qed.

Lemma column_floats (k : pystr) (d : DataFrame) (col : list pyval) :
  float_column k d -> column k d = Ok col ->
  Forall (fun v => exists f, v = PFloat f) col.
Proof.
  intros Hf Hcol. apply Forall_forall. intros v Hv.
  apply (column_cells k d col Hcol) in Hv. apply Exists_exists in Hv as (r & Hr & Hrv).
  unfold float_column in Hf. rewrite Forall_forall in Hf.
  destruct (Hf r Hr) as [f Hrf]. exists f. congruence.
Qed.

Section Extremes.

Variable repr_float : float -> pystr.

Lemma extreme_of_float_column (agg : list pyval -> result float) (k : pystr)
    (st : store) l meta d s st' (o : Summary -> option float) :
  k <> risk_class -> k <> repair_priority ->
  (forall meta l d s,
     build_summary meta l d = Ok s -> stat_if_present agg k d = Ok (o s)) ->
  st !! l = Some d ->
  compute_inspection_summary repr_float l meta st = (Ok s, st') ->
  has_column k d = true ->
  exists col m, column k d = Ok col /\ agg col = Ok m /\ o s = Some m.
Proof.
  intros Hk1 Hk2 Ho Hl Hrun Hkd.
  destruct (compute_inspection_summary_Ok repr_float st l meta d s st' Hl Hrun)
    as (tiers & priorities & _ & _ & H1 & H2 & Hs & _).
  apply Ho in Hs. unfold stat_if_present in Hs.
  rewrite has_column_enriched, column_enriched, Hkd in Hs by done.
  destruct (column k d) as [col|]; [|done]. cbn [bind] in Hs.
  destruct (agg col) as [m|] eqn:Hm; [|done]. cbn [bind] in Hs.
  exists col, m. injection Hs as Hs. by rewrite <- Hs.
Qed.

(** X15. With [depth_pct] a column of floats, [max_depth_pct] is an upper
    bound of the depths of the table, the missing ones apart; when the
    table has a depth, the maximum is one of its depths. *)
Theorem max_depth_pct_bounds_depths (st : store) l meta d s st' :
  st !! l = Some d ->
  compute_inspection_summary repr_float l meta st = (Ok s, st') ->
  has_column depth_pct d = true -> float_column depth_pct d ->
  exists m,
    max_depth_pct (statistics s) = Some m /\
    (forall f, value_in depth_pct d f -> (f <=? m)%float = true) /\
    ((exists f, value_in depth_pct d f) -> value_in depth_pct d m).
Proof.
  intros Hl Hrun Hkd Hf.
  destruct (extreme_of_float_column series_max depth_pct st l meta d s st'
              (fun s => max_depth_pct (statistics s))) as (col & m & Hcol & Hm & Hs);
    try done.
  { intros meta0 l0 d0 s0 H. by destruct (build_summary_fields _ _ _ _ H)
      as (_&_&_&_&_&_& E &_). }
  exists m. split; [done|].
  destruct (series_max_float_column col m (column_floats _ _ _ Hf Hcol) Hm) as [Hb Ha].
  pose proof (column_cells _ _ _ Hcol) as Hcells. split.
  - intros f [Hfn Hfd]. apply Hb; [by apply Hcells | done].
  - intros (f & Hfn & Hfd). destruct Ha as [Hmc Hmn].
    { exists f. split; [by apply Hcells | done]. }
    split; [done | by apply Hcells].
Qed.

(** X16. With [erf_b31g] a column of floats, [min_erf_b31g] is a lower
    bound of the ERF values of the table, the missing ones apart; when the
    table has an ERF value, the minimum is one of them. *)
Theorem min_erf_b31g_bounds_values (st : store) l meta d s st' :
  st !! l = Some d ->
  compute_inspection_summary repr_float l meta st = (Ok s, st') ->
  has_column erf_b31g d = true -> float_column erf_b31g d ->
  exists m,
    min_erf_b31g (statistics s) = Some m /\
    (forall f, value_in erf_b31g d f -> (m <=? f)%float = true) /\
    ((exists f, value_in erf_b31g d f) -> value_in erf_b31g d m).
Proof.
  intros Hl Hrun Hkd Hf.
  destruct (extreme_of_float_column series_min erf_b31g st l meta d s st'
              (fun s => min_erf_b31g (statistics s))) as (col & m & Hcol & Hm & Hs);
    try done.
  { intros meta0 l0 d0 s0 H. by destruct (build_summary_fields _ _ _ _ H)
      as (_&_&_&_&_&_&_&_& E &_). }
  exists m. split; [done|].
  destruct (series_min_float_column col m (column_floats _ _ _ Hf Hcol) Hm) as [Hb Ha].
  pose proof (column_cells _ _ _ Hcol) as Hcells. split.
  - intros f [Hfn Hfd]. apply Hb; [by apply Hcells | done].
  - intros (f & Hfn & Hfd). destruct Ha as [Hmc Hmn].
    { exists f. split; [by apply Hcells | done]. }
    split; [done | by apply Hcells].
Qed.

End Extremes.

Ltac sample_cleaned_table :=
  unfold defect_table; cbn [rows columns frame_cleaned];
  repeat (apply Forall_cons_2; [split; [sample_present | sample_numeric]|]);
  apply Forall_nil_2.

Ltac sample_float_column :=
  unfold float_column; cbn [rows frame_cleaned];
  repeat (apply Forall_cons_2; [eexists; reflexivity|]); apply Forall_nil_2.

Ltac sample_value :=
  split; [reflexivity | apply Exists_cons_hd; reflexivity].

Lemma max_depth_pct_bounds_depths_witness :
  exists s st' m,
    compute_inspection_summary repr_unused 1%positive ∅ (store_of frame_cleaned)
    = (Ok s, st') /\
    max_depth_pct (statistics s) = Some m /\
    (12.5 <=? m)%float = true /\
    value_in depth_pct frame_cleaned m.
Proof.
  destruct (compute_inspection_summary_returns repr_unused (store_of frame_cleaned)
              1%positive ∅ frame_cleaned eq_refl) as (s & st' & Hrun);
    [sample_cleaned_table|].
  destruct (max_depth_pct_bounds_depths repr_unused (store_of frame_cleaned) 1%positive ∅
              frame_cleaned s st' eq_refl Hrun) as (m & Hmax & Hbound & Hone);
    [reflexivity | sample_float_column |].
  exists s, st', m. split; [exact Hrun|]. split; [exact Hmax|]. split.
  - apply Hbound. sample_value.
  - apply Hone. exists 12.5%float. sample_value.
Defined.

Lemma min_erf_b31g_bounds_values_witness :
  exists s st' m,
    compute_inspection_summary repr_unused 1%positive ∅ (store_of frame_cleaned)
    = (Ok s, st') /\
    min_erf_b31g (statistics s) = Some m /\
    (m <=? 0.9)%float = true /\
    value_in erf_b31g frame_cleaned m.
Proof.
  destruct (compute_inspection_summary_returns repr_unused (store_of frame_cleaned)
              1%positive ∅ frame_cleaned eq_refl) as (s & st' & Hrun);
    [sample_cleaned_table|].
  destruct (min_erf_b31g_bounds_values repr_unused (store_of frame_cleaned) 1%positive ∅
              frame_cleaned s st' eq_refl Hrun) as (m & Hmin & Hbound & Hone);
    [reflexivity | sample_float_column |].
  exists s, st', m. split; [exact Hrun|]. split; [exact Hmin|]. split.
  - apply Hbound. sample_value.
  - apply Hone. exists 0.9%float. sample_value.
Defined.

(** ** The normalizer run twice *)

Lemma is_nan_true_nan (x : float) : is_nan x = true -> x = nan.
Proof.
  unfold is_nan. rewrite FloatAxioms.eqb_spec. unfold SFeqb. intros H.
  rewrite <- (SF2Prim_Prim2SF x).
  destruct (Prim2SF x) as [s|s| |s m e]; try done; exfalso; revert H.
  - by destruct s.
  - cbn [SFcompare negb]. destruct s; rewrite Z.compare_refl; fold_pos_compare;
      by rewrite Pos.compare_refl.
Qed.

Section NormalizerTwice.

Variable repr_float : float -> pystr.

Lemma clean_numeric_float (x : float) : clean_numeric repr_float (PFloat x) = Ok x.
Proof.
  unfold clean_numeric. cbn [pd_isna]. destruct (is_nan x) eqn:Hx.
  - cbn [orb]. by rewrite (is_nan_true_nan x Hx).
  - reflexivity.
Qed.

Lemma clean_column_fixed (c : pystr) (d : DataFrame) :
  has_column c d = true ->
  Forall (fun r : row => exists x, r !! c = Some (PFloat x)) (rows d) ->
  clean_column repr_float c d = Ok d.
Proof.
  intros Hc Hall. unfold clean_column, column, set_column. rewrite Hc.
  assert (exists xs,
            mapM (fun r : row => row_item r c) (rows d) = Ok (map PFloat xs) /\
            mapM (clean_numeric repr_float) (map PFloat xs) = Ok xs /\
            zip_with (fun (r : row) v => <[c := v]> r) (rows d) (map PFloat xs) = rows d)
    as (xs & -> & Hclean & Hzip).
  { induction Hall as [|r rs [x Hx] _ (xs & H1 & H2 & H3)].
    - by exists [].
    - exists (x :: xs). cbn [mapM map zip_with]. unfold row_item at 1.
      rewrite Hx, H1, clean_numeric_float, H2, H3. cbn [bind].
      by rewrite insert_id. }
  cbn [bind]. rewrite Hclean. cbn [bind]. rewrite Hzip. by destruct d.
Qed.

Lemma clean_numeric_columns_fixed (cols : list pystr) (d : DataFrame) :
  (forall c, c ∈ cols -> has_column c d = true ->
             Forall (fun r : row => exists x, r !! c = Some (PFloat x)) (rows d)) ->
  clean_numeric_columns repr_float cols d = Ok d.
Proof.
  induction cols as [|c cs IH]; intros Hall; cbn [clean_numeric_columns]; [done|].
  assert (clean_numeric_columns repr_float cs d = Ok d) as Hcs.
  { apply IH. intros c' Hc'. apply Hall. by apply list_elem_of_further. }
  destruct (has_column c d) eqn:Hc; [|done].
  rewrite clean_column_fixed; [done | done |]. apply Hall; [apply list_elem_of_here | done].
Qed.

Lemma cleaned_float_cells (cols : list pystr) (d : DataFrame) (rs rs' : list row) :
  Forall2 (cleaned_cells repr_float cols d) rs rs' ->
  Forall (fun r' : row =>
            forall k, k ∈ cols -> has_column k d = true ->
                      exists x, r' !! k = Some (PFloat x)) rs'.
Proof.
  induction 1 as [|r r' rs rs' Hr _ IH]; constructor; [|done].
  intros k Hk Hkd. destruct (proj1 (Hr k) Hk Hkd) as (v & x & _ & _ & Hx). by exists x.
Qed.

(** X17. The second half of the normalizer is idempotent: on the frame
    it has returned it returns that frame again. *)
Theorem normalizing_twice_changes_nothing (d d' : DataFrame) :
  clean_and_drop repr_float d = Ok d' -> clean_and_drop repr_float d' = Ok d'.
Proof.
  unfold clean_and_drop.
  destruct (clean_numeric_columns repr_float numeric_cols d) as [d1|] eqn:Hd1; [|done].
  cbn [bind]. intros [= <-].
  destruct (clean_numeric_columns_spec repr_float _ _ _ NoDup_numeric_cols Hd1)
    as [Hcols Hrows].
  apply cleaned_float_cells in Hrows.
  rewrite clean_numeric_columns_fixed.
  - cbn [bind]. f_equal. unfold dropna_all. cbn [columns rows]. f_equal.
    by apply list_filter_filter_l.
  - intros c Hc Hcd. unfold dropna_all in *. cbn [columns rows] in *.
    apply Forall_forall. intros r Hr. apply list_elem_of_filter in Hr as [_ Hr].
    rewrite Forall_forall in Hrows. apply (Hrows r Hr c Hc).
    unfold has_column in *. cbn [columns] in Hcd. by rewrite <- Hcols.
Qed.

End NormalizerTwice.

Lemma normalizing_twice_changes_nothing_witness :
  clean_and_drop repr_unused frame_normalized = Ok frame_normalized.
Proof.
  apply (normalizing_twice_changes_nothing repr_unused frame_renamed frame_normalized).
  by vm_compute.
Defined.

(** ** Text where the classifier expects a number *)

Lemma mapM_raises {A B} (f : A -> result B) (l : list A) (i : nat) (a : A) e0 E :
  l !! i = Some a -> f a = Raise e0 ->
  (forall a' e, f a' = Raise e -> e = E) ->
  mapM f l = Raise E.
Proof.
  intros Hi Ha Hall. destruct (mapM f l) as [bs|e] eqn:Hl.
  - apply mapM_Ok_Forall2 in Hl.
    destruct (Forall2_lookup_l _ _ _ _ _ Hl Hi) as (b & _ & Hb). congruence.
  - apply mapM_Raise in Hl as (a' & _ & Ha'). by rewrite (Hall a' e Ha').
Qed.

Lemma notna_and_lt_error v t e : notna_and_lt v t = Raise e -> e = TypeError.
Proof.
  unfold notna_and_lt, py_lt. destruct (pd_notna v); [|done].
  destruct (as_number v); [done | by intros [= <-]].
Qed.

Lemma notna_and_gt_error v t e : notna_and_gt v t = Raise e -> e = TypeError.
Proof.
  unfold notna_and_gt, py_gt. destruct (pd_notna v); [|done].
  destruct (as_number v); [done | by intros [= <-]].
Qed.

Section TextMeasurement.

Variable repr_float : float -> pystr.

(** The classifier raises nothing but [TypeError]. *)
Lemma assign_risk_class_error (r : row) e :
  assign_risk_class repr_float r = Raise e -> e = TypeError.
Proof.
  unfold assign_risk_class. cbn zeta. destruct (_ || _); [done|].
  repeat match goal with
  | |- context [bind ?x _] =>
      let E := fresh "E" in
      destruct x as [[]|] eqn:E; cbn [bind]; [done | |
        intros [= <-];
        first [by eapply notna_and_lt_error | by eapply notna_and_gt_error]]
  end.
  done.
Qed.

Lemma text_erf_b31g_raises (r : row) (s : pystr) :
  ~ flagged repr_float r -> r !! erf_b31g = Some (PStr s) ->
  assign_risk_class repr_float r = Raise TypeError.
Proof.
  intros Hflag Hs. unfold assign_risk_class. cbn zeta.
  fold (flag_text repr_float r). rewrite (flag_test_not_flagged repr_float r Hflag).
  unfold row_get at 1. by rewrite Hs.
Qed.

(** X18. Text in the [erf_b31g] cell of a record without a repair marker
    stops the aggregator: the comparison of the rule raises [TypeError],
    and no summary is returned. *)
Theorem text_measurement_stops_aggregator (st : store) (l : ref) (meta : row)
    (d : DataFrame) (i : nat) (r : row) (s : pystr) :
  st !! l = Some d -> rows d !! i = Some r ->
  ~ flagged repr_float r -> r !! erf_b31g = Some (PStr s) ->
  fst (compute_inspection_summary repr_float l meta st) = Raise TypeError.
Proof.
  intros Hl Hi Hflag Hs.
  rewrite (compute_inspection_summary_run repr_float st l meta d Hl). cbn zeta.
  unfold apply_rows at 1.
  rewrite (mapM_raises (risk_class_of repr_float) (rows d) i r TypeError TypeError); try done.
  - unfold risk_class_of, fmap_result. by rewrite (text_erf_b31g_raises r s).
  - intros r' e. unfold risk_class_of, fmap_result.
    destruct (assign_risk_class repr_float r') as [c|e'] eqn:Hr'; [done|].
    intros [= <-]. by eapply assign_risk_class_error.
Qed.

End TextMeasurement.

Lemma text_measurement_stops_aggregator_witness :
  fst (compute_inspection_summary repr_unused 1%positive ∅ (store_of frame_unclean))
  = Raise TypeError.
Proof.
  apply (text_measurement_stops_aggregator repr_unused (store_of frame_unclean)
           1%positive ∅ frame_unclean 0%nat record_text_erf (u8 "0,45")).
  - reflexivity.
  - reflexivity.
  - apply not_flagged_by_test. by vm_compute.
  - reflexivity.
Defined.
